(** * configure.py: Blender custom settings script

    A shallow embedding of [src/configure.py] (class [BlenderCustomSettings]
    and the [__main__] entry point) together with the properties of the
    version guard, of the space lookup helper [get_spaces] and of the
    setter routines.

    The host application ([bpy]) is not part of the repository.  It is
    modelled as a record of the objects the script reaches:
    - attributes the script reads ([name], [type], [display_mode], the
      collections) are record fields, so every screen, area and space has
      them;
    - attributes the script writes live in a property store keyed by
      attribute path, and the host accepts every assignment;
    - subscripts ([themes[0]], [face_select[3]], [addons["cycles"]]) are
      partial lookups that raise [IndexError] and [KeyError] as Python
      does;
    - spaces and cameras are objects behind references, since the script
      first collects them and then assigns to them.
    Strings are ASCII strings; floats are IEEE 754 binary64 values. *)

From Stdlib Require Import ZArith NArith Ascii String List Bool Lia.
From Stdlib Require Import Floats.SpecFloat.
From stdpp Require Import base option list strings gmap.

Local Open Scope string_scope.
Local Open Scope list_scope.
Local Open Scope Z_scope.

(** ** Python [float] values and [float(str)] *)

Module PyFloat.

(** Python floats are IEEE 754 binary64. *)
Definition prec : Z := 53.
Definition emax : Z := 1024.

Definition float := spec_float.

(** [x == y] on floats: NaN is unequal to everything, [0.0 == -0.0]. *)
Definition eqb (x y : float) : bool := SFeqb x y.

(** The C locale's [isspace]: space, and [\t \n \v \f \r]. *)
Definition is_space (c : ascii) : bool :=
  let n := nat_of_ascii c in
  Nat.eqb n 32 || (Nat.leb 9 n && Nat.leb n 13).

Definition digit_of (c : ascii) : option N :=
  let n := N_of_ascii c in
  if (N.leb 48 n && N.leb n 57)%bool then Some (n - 48)%N else None.

Definition is_digit (c : ascii) : bool :=
  match digit_of c with Some _ => true | None => false end.

Definition is_underscore (c : ascii) : bool := Ascii.eqb c "_".

Fixpoint drop_spaces (s : list ascii) : list ascii :=
  match s with
  | c :: s' => if is_space c then drop_spaces s' else s
  | [] => []
  end.

(** Leading and trailing white space is removed before parsing. *)
Definition strip (s : list ascii) : list ascii :=
  rev (drop_spaces (rev (drop_spaces s))).

(** Single underscores are allowed between two digits only; [prev] is
    the character before the head of [s]. *)
Fixpoint drop_underscores (prev : ascii) (s : list ascii)
  : option (list ascii) :=
  match s with
  | [] => if is_underscore prev then None else Some []
  | c :: s' =>
      if is_underscore c then
        if is_digit prev then drop_underscores c s' else None
      else if (is_underscore prev && negb (is_digit c))%bool then None
      else cons c <$> drop_underscores c s'
  end.

(** The longest prefix of decimal digits, and the rest. *)
Fixpoint span_digits (s : list ascii) : list N * list ascii :=
  match s with
  | c :: s' =>
      match digit_of c with
      | Some d => let '(ds, r) := span_digits s' in (d :: ds, r)
      | None => ([], s)
      end
  | [] => ([], [])
  end.

Definition digits_value (ds : list N) : N :=
  fold_left (fun acc d => (10 * acc + d)%N) ds 0%N.

(** An optional sign: [true] stands for [-]. *)
Definition take_sign (s : list ascii) : bool * list ascii :=
  match s with
  | c :: s' =>
      if Ascii.eqb c "-" then (true, s')
      else if Ascii.eqb c "+" then (false, s')
      else (false, s)
  | [] => (false, [])
  end.

(** The exponent part: empty, or [e]/[E], an optional sign and at least
    one digit, up to the end of the string. *)
Definition parse_exponent (s : list ascii) : option Z :=
  match s with
  | [] => Some 0
  | c :: s' =>
      if (Ascii.eqb c "e" || Ascii.eqb c "E")%bool then
        let '(neg, s1) := take_sign s' in
        match span_digits s1 with
        | (d :: ds, []) =>
            let v := Z.of_N (digits_value (d :: ds)) in
            Some (if neg then - v else v)
        | _ => None
        end
      else None
  end.

(** An unsigned decimal number [digits [. digits] [exponent]] with a
    digit before or after the point, as a mantissa and a power of ten. *)
Definition parse_decimal (s : list ascii) : option (N * Z) :=
  let '(ip, r1) := span_digits s in
  let '(fp, r2) :=
    match r1 with
    | c :: t => if Ascii.eqb c "." then span_digits t else ([], r1)
    | [] => ([], r1)
    end in
  match ip ++ fp with
  | [] => None
  | ds =>
      e ← parse_exponent r2;
      Some (digits_value ds, e - Z.of_nat (length fp))
  end.

Definition lower (c : ascii) : ascii :=
  let n := nat_of_ascii c in
  if (Nat.leb 65 n && Nat.leb n 90)%bool then ascii_of_nat (n + 32) else c.

(** [inf], [infinity] and [nan], in any case. *)
Definition parse_special (neg : bool) (s : list ascii) : option float :=
  let w := string_of_list_ascii (map lower s) in
  if (String.eqb w "inf" || String.eqb w "infinity")%bool
  then Some (S754_infinity neg)
  else if String.eqb w "nan" then Some S754_nan
  else None.

(** The binary64 value nearest to [m * 10^e], ties to even; a value out
    of range becomes an infinity, a tiny one a zero. *)
Definition round_decimal (neg : bool) (m : N) (e : Z) : float :=
  match m with
  | N0 => S754_zero neg
  | Npos p =>
      if 0 <=? e then
        binary_round prec emax neg (p * Z.to_pos (10 ^ e))%positive 0
      else
        let '(q, e', l) :=
          SFdiv_core_binary prec emax (Zpos p) 0 (10 ^ (- e)) 0 in
        binary_round_aux prec emax neg q e' l
  end.

(** [float(s)] for a string [s]; [None] stands for [ValueError]. *)
Definition of_string (s : string) : option float :=
  body ← drop_underscores "000" (strip (list_ascii_of_string s));
  let '(neg, r) := take_sign body in
  match parse_decimal r with
  | Some (m, e) => Some (round_decimal neg m e)
  | None => parse_special neg r
  end.

(** The value of a float literal of the source, e.g. [2.83]. *)
Definition lit (s : string) : float :=
  default S754_nan (of_string s).

End PyFloat.


(** ** The host application, as the script sees it *)

(** Values the script assigns to host properties. *)
Inductive value :=
  | VBool (b : bool)
  | VInt (n : Z)
  | VFloat (x : PyFloat.float)
  | VStr (s : string).

(** A property store: the attributes written on one host object, keyed by
    attribute path ([render.engine] on the scene, [shading.type] on a
    space). *)
Abbreviation props := (gmap string value).

(** Spaces and cameras are reached through references: the script obtains
    them from host collections and assigns to them afterwards. *)
Definition ref := nat.

Record Space := {
  space_type : string;
  space_display_mode : string;
  space_props : props
}.

Record Area := {
  area_type : string;
  area_spaces : list ref
}.

Record Screen := {
  screen_name : string;
  screen_areas : list Area
}.

Record Camera := {
  camera_props : props
}.

(** [themes[i].view_3d.face_select] is an array of colour components. *)
Record Theme := {
  view_3d_face_select : list value
}.

Record Addon := {
  addon_preferences : props
}.

(** [bpy.context.preferences]: [view.*] and [inputs.*] live in
    [pref_props]. *)
Record Preferences := {
  pref_props : props;
  pref_themes : list Theme;
  pref_addons : gmap string Addon
}.

Record Bpy := {
  app_version_string : string;
  data_screens : list Screen;
  data_cameras : list ref;
  space_at : ref -> Space;
  camera_at : ref -> Camera;
  context_scene : props;
  context_view_layer : props;
  context_preferences : Preferences;
  keyconfigs_default_preferences : props
}.

(** What the script does besides changing the host state: lines written
    by [print], and entries into the routines of the settings class.  The
    entries are a log kept for stating which routines ran and in which
    order; the script itself never reads it. *)
Inductive event :=
  | Print (line : string)
  | Call (routine : string).

Record World := {
  bpy : Bpy;
  trace : list event
}.

Definition printed (t : list event) : list string :=
  omap (fun e => match e with Print s => Some s | Call _ => None end) t.

Definition invoked (t : list event) : list string :=
  omap (fun e => match e with Call s => Some s | Print _ => None end) t.

(** ** Exceptions and the monad of script code *)

Inductive exn :=
  | ValueError
  | IndexError
  | KeyError.

(** A computation runs in a world, may change it, and returns a value or
    raises; a raised exception keeps the changes made so far. *)
Definition M (A : Type) : Type := World -> World * (exn + A).

#[global] Instance M_ret : MRet M := fun A a w => (w, inr a).

#[global] Instance M_bind : MBind M := fun A B f m w =>
  match m w with
  | (w', inr a) => f a w'
  | (w', inl e) => (w', inl e)
  end.

Definition raise {A} (e : exn) : M A := fun w => (w, inl e).

Definition get_bpy : M Bpy := fun w => (w, inr (bpy w)).

Definition modify_bpy (f : Bpy -> Bpy) : M unit :=
  fun w => ({| bpy := f (bpy w); trace := trace w |}, inr tt).

Definition emit (e : event) : M unit :=
  fun w => ({| bpy := bpy w; trace := trace w ++ [e] |}, inr tt).

Definition print (line : string) : M unit := emit (Print line).

(** Entry into a routine of the settings class. *)
Definition enter (routine : string) : M unit := emit (Call routine).

(** [for x in l: body x] *)
Fixpoint for_each {A} (l : list A) (body : A -> M unit) : M unit :=
  match l with
  | [] => mret tt
  | x :: l' => body x;; for_each l' body
  end.

(** *** Assignments to host properties *)

Definition update_at {A} (r : ref) (f : A -> A) (h : ref -> A) : ref -> A :=
  fun r' => if decide (r' = r) then f (h r') else h r'.

Definition set_space_props (k : string) (v : value) (sp : Space) : Space :=
  {| space_type := space_type sp;
     space_display_mode := space_display_mode sp;
     space_props := <[k:=v]> (space_props sp) |}.

Definition set_camera_props (k : string) (v : value) (c : Camera) : Camera :=
  {| camera_props := <[k:=v]> (camera_props c) |}.

(** [space.k = v] for the space behind reference [r]. *)
Definition space_set (r : ref) (k : string) (v : value) : M unit :=
  modify_bpy (fun b =>
    {| app_version_string := app_version_string b;
       data_screens := data_screens b;
       data_cameras := data_cameras b;
       space_at := update_at r (set_space_props k v) (space_at b);
       camera_at := camera_at b;
       context_scene := context_scene b;
       context_view_layer := context_view_layer b;
       context_preferences := context_preferences b;
       keyconfigs_default_preferences := keyconfigs_default_preferences b |}).

(** [cam.k = v] for the camera behind reference [r]. *)
Definition camera_set (r : ref) (k : string) (v : value) : M unit :=
  modify_bpy (fun b =>
    {| app_version_string := app_version_string b;
       data_screens := data_screens b;
       data_cameras := data_cameras b;
       space_at := space_at b;
       camera_at := update_at r (set_camera_props k v) (camera_at b);
       context_scene := context_scene b;
       context_view_layer := context_view_layer b;
       context_preferences := context_preferences b;
       keyconfigs_default_preferences := keyconfigs_default_preferences b |}).

(** [bpy.context.scene.k = v] *)
Definition scene_set (k : string) (v : value) : M unit :=
  modify_bpy (fun b =>
    {| app_version_string := app_version_string b;
       data_screens := data_screens b;
       data_cameras := data_cameras b;
       space_at := space_at b;
       camera_at := camera_at b;
       context_scene := <[k:=v]> (context_scene b);
       context_view_layer := context_view_layer b;
       context_preferences := context_preferences b;
       keyconfigs_default_preferences := keyconfigs_default_preferences b |}).

(** [bpy.context.view_layer.k = v] *)
Definition view_layer_set (k : string) (v : value) : M unit :=
  modify_bpy (fun b =>
    {| app_version_string := app_version_string b;
       data_screens := data_screens b;
       data_cameras := data_cameras b;
       space_at := space_at b;
       camera_at := camera_at b;
       context_scene := context_scene b;
       context_view_layer := <[k:=v]> (context_view_layer b);
       context_preferences := context_preferences b;
       keyconfigs_default_preferences := keyconfigs_default_preferences b |}).

Definition set_preferences (p : Preferences) : M unit :=
  modify_bpy (fun b =>
    {| app_version_string := app_version_string b;
       data_screens := data_screens b;
       data_cameras := data_cameras b;
       space_at := space_at b;
       camera_at := camera_at b;
       context_scene := context_scene b;
       context_view_layer := context_view_layer b;
       context_preferences := p;
       keyconfigs_default_preferences := keyconfigs_default_preferences b |}).

(** [pref.k = v] for [pref = bpy.context.preferences] *)
Definition pref_set (k : string) (v : value) : M unit :=
  b ← get_bpy;
  let p := context_preferences b in
  set_preferences
    {| pref_props := <[k:=v]> (pref_props p);
       pref_themes := pref_themes p;
       pref_addons := pref_addons p |}.

(** [pref.themes[i].view_3d.face_select[j] = v]; either subscript raises
    [IndexError] when it is out of range. *)
Definition theme_face_select_set (i j : nat) (v : value) : M unit :=
  b ← get_bpy;
  let p := context_preferences b in
  match pref_themes p !! i with
  | None => raise IndexError
  | Some th =>
      if decide (j < length (view_3d_face_select th))%nat then
        set_preferences
          {| pref_props := pref_props p;
             pref_themes :=
               <[i := {| view_3d_face_select :=
                           <[j:=v]> (view_3d_face_select th) |}]>
                 (pref_themes p);
             pref_addons := pref_addons p |}
      else raise IndexError
  end.

(** [pref.addons[name].preferences.k = v]; raises [KeyError] when the
    add-on is not registered. *)
Definition addon_preferences_set (name k : string) (v : value) : M unit :=
  b ← get_bpy;
  let p := context_preferences b in
  match pref_addons p !! name with
  | None => raise KeyError
  | Some a =>
      set_preferences
        {| pref_props := pref_props p;
           pref_themes := pref_themes p;
           pref_addons :=
             <[name := {| addon_preferences :=
                            <[k:=v]> (addon_preferences a) |}]>
               (pref_addons p) |}
  end.

(** [bpy.context.window_manager.keyconfigs.default.preferences.k = v] *)
Definition keyconfig_preferences_set (k : string) (v : value) : M unit :=
  modify_bpy (fun b =>
    {| app_version_string := app_version_string b;
       data_screens := data_screens b;
       data_cameras := data_cameras b;
       space_at := space_at b;
       camera_at := camera_at b;
       context_scene := context_scene b;
       context_view_layer := context_view_layer b;
       context_preferences := context_preferences b;
       keyconfigs_default_preferences :=
         <[k:=v]> (keyconfigs_default_preferences b) |}).

(** ** class BlenderCustomSettings *)

(** The attributes of an instance. *)
Record BlenderCustomSettings := {
  ver : PyFloat.float;
  supports : list PyFloat.float
}.

(** [x in l] for a float [x] and a list of floats. *)
Definition float_in (x : PyFloat.float) (l : list PyFloat.float) : bool :=
  existsb (fun y => PyFloat.eqb y x) l.

(** Truth value of an optional string argument: [None] and the empty
    string are false. *)
Definition truthy_str (o : option string) : bool :=
  match o with
  | Some s => negb (String.eqb s "")
  | None => false
  end.

(** Truth value of an optional list argument: [None] and the empty list
    are false. *)
Definition truthy_list {A} (o : option (list A)) : bool :=
  match o with
  | Some (_ :: _) => true
  | _ => false
  end.

(** [bpy.app.version_string[:4]] *)
Definition version_prefix (b : Bpy) : string :=
  substring 0 4 (app_version_string b).

(** [__init__]: [float] raises [ValueError] on a string that is not a
    number. *)
Definition __init__ : M BlenderCustomSettings :=
  b ← get_bpy;
  match PyFloat.of_string (version_prefix b) with
  | Some v => mret {| ver := v; supports := [PyFloat.lit "2.83"] |}
  | None => raise ValueError
  end.

Definition check_version (self : BlenderCustomSettings) : bool :=
  float_in (ver self) (supports self).

Definition get_spaces (self : BlenderCustomSettings) (type_name : string)
    (display_mode : option string) (screen_names : option (list string))
  : M (list ref) :=
  b ← get_bpy;
  let target_spaces : list ref := [] in
  let screens := data_screens b in
  let screens :=
    if truthy_list screen_names
    then filter (fun sc => screen_name sc ∈ default [] screen_names) screens
    else screens in
  mret
    (fold_left (fun target_spaces screen =>
       fold_left (fun target_spaces area =>
         let spaces :=
           filter (fun sp => space_type (space_at b sp) = type_name)
                  (area_spaces area) in
         let spaces :=
           if truthy_str display_mode
           then filter (fun sp => Some (space_display_mode (space_at b sp))
                                  = display_mode) spaces
           else spaces in
         fold_left (fun target_spaces space => target_spaces ++ [space])
                   spaces target_spaces)
         (filter (fun area => area_type area = type_name)
                 (screen_areas screen))
         target_spaces)
       screens target_spaces).

Definition setup_scene_cycles (self : BlenderCustomSettings) : M unit :=
  enter "setup_scene_cycles";;
  scene_set "render.engine" (VStr "CYCLES");;
  scene_set "cycles.feature_set" (VStr "EXPERIMENTAL");;
  scene_set "cycles.device" (VStr "GPU");;
  scene_set "cycles.preview_dicing_rate" (VInt 1);;
  view_layer_set "cycles.use_denoising" (VBool true);;
  view_layer_set "cycles.use_optix_denoising" (VBool true);;
  view_layer_set "cycles.denoising_optix_input_passes" (VStr "RGB_ALBEDO");;
  scene_set "cycles.preview_denoising" (VStr "NONE");;
  scene_set "cycles.samples" (VInt 128);;
  scene_set "cycles.preview_samples" (VInt 32);;
  scene_set "cycles.use_adaptive_sampling" (VBool true);;
  let bounces := VInt 32 in
  scene_set "cycles.max_bounces" bounces;;
  scene_set "cycles.diffuse_bounces" bounces;;
  scene_set "cycles.glossy_bounces" bounces;;
  scene_set "cycles.transparent_max_bounces" bounces;;
  scene_set "cycles.transmission_bounces" bounces;;
  scene_set "cycles.volume_bounces" bounces;;
  scene_set "cycles.caustics_reflective" (VBool true);;
  scene_set "cycles.caustics_refractive" (VBool true);;
  scene_set "render.threads_mode" (VStr "AUTO");;
  scene_set "render.tile_x" (VInt 256);;
  scene_set "render.tile_y" (VInt 256);;
  scene_set "cycles.use_progressive_refine" (VBool false).

Definition setup_scene_shading (self : BlenderCustomSettings) : M unit :=
  enter "setup_scene_shading";;
  let target_screens :=
    ["Layout"; "Modeling"; "Sculpting"; "UV Editing"; "Animation";
     "Scripting"] in
  spaces ← get_spaces self "VIEW_3D" None (Some target_screens);
  for_each spaces (fun space =>
    space_set space "shading.type" (VStr "SOLID");;
    space_set space "shading.light" (VStr "STUDIO");;
    space_set space "shading.color_type" (VStr "RANDOM");;
    space_set space "shading.show_cavity" (VBool true);;
    space_set space "shading.cavity_type" (VStr "BOTH");;
    space_set space "shading.cavity_ridge_factor" (VFloat (PyFloat.lit "0.8"));;
    space_set space "shading.cavity_valley_factor" (VFloat (PyFloat.lit "1.0"));;
    space_set space "shading.curvature_ridge_factor" (VFloat (PyFloat.lit "0.8"));;
    space_set space "shading.curvature_valley_factor" (VFloat (PyFloat.lit "1.0"))).

Definition setup_scene_outliner (self : BlenderCustomSettings) : M unit :=
  enter "setup_scene_outliner";;
  spaces ← get_spaces self "OUTLINER" (Some "VIEW_LAYER") None;
  for_each spaces (fun space =>
    space_set space "show_restrict_column_select" (VBool true);;
    space_set space "show_restrict_column_render" (VBool true)).

Definition setup_scene_clipping (self : BlenderCustomSettings) : M unit :=
  enter "setup_scene_clipping";;
  let '(start, end_) := (VFloat (PyFloat.lit "0.001"), VInt 1000) in
  spaces ← get_spaces self "VIEW_3D" None None;
  for_each spaces (fun space =>
    space_set space "clip_start" start;;
    space_set space "clip_end" end_);;
  b ← get_bpy;
  for_each (data_cameras b) (fun cam =>
    camera_set cam "clip_start" start;;
    camera_set cam "clip_end" end_).

Definition setup_scene_scripting (self : BlenderCustomSettings) : M unit :=
  enter "setup_scene_scripting";;
  spaces ← get_spaces self "CONSOLE" None None;
  for_each spaces (fun space =>
    space_set space "font_size" (VInt 16)).

Definition setup_preferences (self : BlenderCustomSettings) : M unit :=
  enter "setup_preferences";;
  pref_set "view.ui_scale" (VFloat (PyFloat.lit "1.05"));;
  pref_set "view.ui_line_width" (VStr "AUTO");;
  pref_set "view.show_splash" (VBool false);;
  pref_set "view.show_tooltips" (VBool true);;
  pref_set "view.show_tooltips_python" (VBool true);;
  pref_set "view.show_developer_ui" (VBool false);;
  pref_set "view.language" (VStr "ja_JP");;
  pref_set "view.use_translate_tooltips" (VBool true);;
  pref_set "view.use_translate_interface" (VBool false);;
  pref_set "view.use_translate_new_dataname" (VBool false);;
  theme_face_select_set 0 3 (VFloat (PyFloat.lit "0.4"));;
  pref_set "view.gizmo_size" (VInt 120);;
  pref_set "inputs.use_numeric_input_advanced" (VBool true);;
  pref_set "inputs.mouse_double_click_time" (VInt 250);;
  pref_set "inputs.drag_threshold_mouse" (VInt 5);;
  pref_set "inputs.drag_threshold" (VInt 45);;
  pref_set "inputs.move_threshold" (VInt 3);;
  pref_set "inputs.ndof_show_guide" (VBool true);;
  pref_set "inputs.ndof_pan_yz_swap_axis" (VBool true);;
  pref_set "inputs.use_zoom_to_mouse" (VBool true);;
  keyconfig_preferences_set "spacebar_action" (VStr "SEARCH");;
  addon_preferences_set "cycles" "compute_device_type" (VStr "OPTIX").

(** ** Entry point *)

(** The body of [if __name__ == "__main__":].  The closing [del bcs] only
    unbinds the local name. *)
Definition main : M unit :=
  bcs ← __init__;
  if check_version bcs then
    print "BlenderCustomSettings: Apply custom settings...";;
    setup_scene_cycles bcs;;
    setup_scene_shading bcs;;
    setup_scene_outliner bcs;;
    setup_scene_clipping bcs;;
    setup_scene_scripting bcs;;
    setup_preferences bcs
  else
    print "BlenderCustomSettings: Unsupported version!".

(** ** Example hosts *)

Module Examples.

Definition view3d : Space :=
  {| space_type := "VIEW_3D"; space_display_mode := ""; space_props := ∅ |}.

Definition outliner (mode : string) : Space :=
  {| space_type := "OUTLINER"; space_display_mode := mode;
     space_props := ∅ |}.

Definition console : Space :=
  {| space_type := "CONSOLE"; space_display_mode := ""; space_props := ∅ |}.

(** Spaces 0..4; space 2 is a 3D viewport kept behind the outliner of
    the area that shows space 1. *)
Definition studio_spaces (r : ref) : Space :=
  match r with
  | 0%nat => view3d
  | 1%nat => outliner "VIEW_LAYER"
  | 2%nat => view3d
  | 3%nat => console
  | 4%nat => view3d
  | _ => outliner "LIBRARIES"
  end.

Definition studio_screens : list Screen :=
  [ {| screen_name := "Layout";
       screen_areas :=
         [ {| area_type := "VIEW_3D"; area_spaces := [0%nat] |};
           {| area_type := "OUTLINER"; area_spaces := [1%nat; 2%nat] |} ] |};
    {| screen_name := "Scripting";
       screen_areas :=
         [ {| area_type := "CONSOLE"; area_spaces := [3%nat] |} ] |};
    {| screen_name := "Shading";
       screen_areas :=
         [ {| area_type := "VIEW_3D"; area_spaces := [4%nat] |} ] |} ].

Definition rgba : list value :=
  [VFloat (PyFloat.lit "1.0"); VFloat (PyFloat.lit "0.5");
   VFloat (PyFloat.lit "0.0"); VFloat (PyFloat.lit "0.2")].

Definition studio_preferences (cycles : bool) : Preferences :=
  {| pref_props := ∅;
     pref_themes := [ {| view_3d_face_select := rgba |} ];
     pref_addons :=
       if cycles then {[ "cycles" := {| addon_preferences := ∅ |} ]}
       else ∅ |}.

(** A host with the given version string, with or without the Cycles
    add-on. *)
Definition studio (version : string) (cycles : bool) : World :=
  {| bpy :=
       {| app_version_string := version;
          data_screens := studio_screens;
          data_cameras := [0%nat];
          space_at := studio_spaces;
          camera_at := fun _ => {| camera_props := ∅ |};
          context_scene := ∅;
          context_view_layer := ∅;
          context_preferences := studio_preferences cycles;
          keyconfigs_default_preferences := ∅ |};
     trace := [] |}.

(** The settings objects constructed on hosts of versions 2.83.x and
    2.90.x. *)
Definition release_2_83 : BlenderCustomSettings :=
  {| ver := PyFloat.lit "2.83"; supports := [PyFloat.lit "2.83"] |}.

Definition release_2_90 : BlenderCustomSettings :=
  {| ver := PyFloat.lit "2.90"; supports := [PyFloat.lit "2.83"] |}.


End Examples.

Import Examples.

(** ** Specifications *)

(** The spaces the host exposes, with the screen and the area that hold
    them, in the order the host iterates over screens, areas and spaces. *)
Definition exposed_spaces (b : Bpy) : list (Screen * Area * ref) :=
  screen ← data_screens b;
  area ← screen_areas screen;
  sp ← area_spaces area;
  [(screen, area, sp)].

(** The filters [get_spaces] applies to an exposed space. *)
Definition selected (b : Bpy) (type_name : string)
    (display_mode : option string) (screen_names : option (list string))
    (x : Screen * Area * ref) : Prop :=
  area_type x.1.2 = type_name ∧
  space_type (space_at b x.2) = type_name ∧
  (truthy_str display_mode = true →
   Some (space_display_mode (space_at b x.2)) = display_mode) ∧
  (truthy_list screen_names = true →
   screen_name x.1.1 ∈ default [] screen_names).

#[global] Instance selected_dec b type_name display_mode screen_names x :
  Decision (selected b type_name display_mode screen_names x).
Proof. unfold selected. apply _. Defined.

(** The predicates of the specification's wording: the type of the space,
    the display mode when one is given, the screen names when given. *)
Definition selected_by_spec (b : Bpy) (type_name : string)
    (display_mode : option string) (screen_names : option (list string))
    (x : Screen * Area * ref) : Prop :=
  space_type (space_at b x.2) = type_name ∧
  match display_mode with
  | Some dm => space_display_mode (space_at b x.2) = dm
  | None => True
  end ∧
  match screen_names with
  | Some names => screen_name x.1.1 ∈ names
  | None => True
  end.

#[global] Instance selected_by_spec_dec b type_name display_mode screen_names x :
  Decision (selected_by_spec b type_name display_mode screen_names x).
Proof.
  unfold selected_by_spec.
  destruct display_mode, screen_names; apply _.
Defined.

(** [get_spaces] as the specification words it. *)
Definition get_spaces_by_spec (b : Bpy) (type_name : string)
    (display_mode : option string) (screen_names : option (list string))
  : list ref :=
  (filter (selected_by_spec b type_name display_mode screen_names)
          (exposed_spaces b)).*2.

(** The outcome of the version guard of the entry point: the exception of
    the constructor, or the result of [check_version]. *)
Definition version_guard (w : World) : exn + bool :=
  match __init__ w with
  | (_, inr bcs) => inr (check_version bcs)
  | (_, inl e) => inl e
  end.

(** [themes[0].view_3d.face_select[3]] exists. *)
Definition themes_ready (b : Bpy) : Prop :=
  exists th, pref_themes (context_preferences b) !! 0%nat = Some th /\
             (3 < length (view_3d_face_select th))%nat.

(** [addons["cycles"]] exists. *)
Definition addons_ready (b : Bpy) : Prop :=
  is_Some (pref_addons (context_preferences b) !! "cycles").

(** What [setup_preferences] needs of the host for its subscripts: a first
    theme with a fourth colour component, and the Cycles add-on. *)
Definition preferences_ready (b : Bpy) : Prop :=
  themes_ready b /\ addons_ready b.

(** A space that lies in a 3D viewport area and is a 3D viewport. *)
Definition viewport (b : Bpy) (r : ref) : Prop :=
  ∃ screen area,
    screen ∈ data_screens b ∧ area ∈ screen_areas screen ∧
    area_type area = "VIEW_3D" ∧ r ∈ area_spaces area ∧
    space_type (space_at b r) = "VIEW_3D".

(** The themes and the add-ons of the preferences. *)
Definition registry (b : Bpy) : list Theme * gmap string Addon :=
  (pref_themes (context_preferences b), pref_addons (context_preferences b)).

(** A computation that returns, prints nothing, enters no routine and
    leaves themes and add-ons alone. *)
Definition silent {A} (m : M A) : Prop :=
  forall w, exists w' a,
    m w = (w', inr a) /\ trace w' = trace w /\
    registry (bpy w') = registry (bpy w).

(** A computation that prints nothing and enters no routine, and returns
    exactly when the host satisfies [R]. *)
Definition finishes (R : Bpy -> Prop) (k : M unit) : Prop :=
  forall w, exists w' r,
    k w = (w', r) /\ trace w' = trace w /\ (r = inr tt <-> R (bpy w)).

(** Everything of the host but the spaces behind references. *)
Definition same_but_spaces (b b' : Bpy) : Prop :=
  app_version_string b' = app_version_string b /\
  data_screens b' = data_screens b /\
  data_cameras b' = data_cameras b /\
  camera_at b' = camera_at b /\
  context_scene b' = context_scene b /\
  context_view_layer b' = context_view_layer b /\
  context_preferences b' = context_preferences b /\
  keyconfigs_default_preferences b' = keyconfigs_default_preferences b.

(** Everything of the host but the cameras behind references. *)
Definition same_but_cameras (b b' : Bpy) : Prop :=
  app_version_string b' = app_version_string b /\
  data_screens b' = data_screens b /\
  data_cameras b' = data_cameras b /\
  space_at b' = space_at b /\
  context_scene b' = context_scene b /\
  context_view_layer b' = context_view_layer b /\
  context_preferences b' = context_preferences b /\
  keyconfigs_default_preferences b' = keyconfigs_default_preferences b.

(** The two assignments of [setup_scene_clipping] on a property store:
    [clip_start = 0.001] (the double 0x1.0624dd2f1a9fcp-10) and
    [clip_end = 1000]. *)
Definition clip (p : props) : props :=
  <["clip_end" := VInt 1000]>
    (<["clip_start" := VFloat (S754_finite false 4611686018427388 (-62))]> p).

Definition clip_space (sp : Space) : Space :=
  {| space_type := space_type sp;
     space_display_mode := space_display_mode sp;
     space_props := clip (space_props sp) |}.

Definition clip_camera (c : Camera) : Camera :=
  {| camera_props := clip (camera_props c) |}.

(** ** Tables of the assignments of the setters *)

(** Assignments made in order: a later one to the same key wins. *)
Definition assign_all (kvs : list (string * value)) (p : props) : props :=
  fold_left (fun p kv => <[kv.1 := kv.2]> p) kvs p.

(** [p'] is [p] with every key of the table set to its listed value and
    every other key as it was. *)
Definition updated_by (kvs : list (string * value)) (p p' : props) : Prop :=
  (forall k v, (k, v) ∈ kvs -> p' !! k = Some v) /\
  (forall k, k ∉ kvs.*1 -> p' !! k = p !! k).

(** The assignments of [setup_scene_cycles] on [bpy.context.scene]. *)
Definition cycles_scene_settings : list (string * value) :=
  [("render.engine", VStr "CYCLES");
   ("cycles.feature_set", VStr "EXPERIMENTAL");
   ("cycles.device", VStr "GPU");
   ("cycles.preview_dicing_rate", VInt 1);
   ("cycles.preview_denoising", VStr "NONE");
   ("cycles.samples", VInt 128);
   ("cycles.preview_samples", VInt 32);
   ("cycles.use_adaptive_sampling", VBool true);
   ("cycles.max_bounces", VInt 32);
   ("cycles.diffuse_bounces", VInt 32);
   ("cycles.glossy_bounces", VInt 32);
   ("cycles.transparent_max_bounces", VInt 32);
   ("cycles.transmission_bounces", VInt 32);
   ("cycles.volume_bounces", VInt 32);
   ("cycles.caustics_reflective", VBool true);
   ("cycles.caustics_refractive", VBool true);
   ("render.threads_mode", VStr "AUTO");
   ("render.tile_x", VInt 256);
   ("render.tile_y", VInt 256);
   ("cycles.use_progressive_refine", VBool false)].

(** The assignments of [setup_scene_cycles] on [bpy.context.view_layer]. *)
Definition cycles_view_layer_settings : list (string * value) :=
  [("cycles.use_denoising", VBool true);
   ("cycles.use_optix_denoising", VBool true);
   ("cycles.denoising_optix_input_passes", VStr "RGB_ALBEDO")].

(** The assignments of [setup_preferences] before the theme colour. *)
Definition interface_settings : list (string * value) :=
  [("view.ui_scale", VFloat (PyFloat.lit "1.05"));
   ("view.ui_line_width", VStr "AUTO");
   ("view.show_splash", VBool false);
   ("view.show_tooltips", VBool true);
   ("view.show_tooltips_python", VBool true);
   ("view.show_developer_ui", VBool false);
   ("view.language", VStr "ja_JP");
   ("view.use_translate_tooltips", VBool true);
   ("view.use_translate_interface", VBool false);
   ("view.use_translate_new_dataname", VBool false)].

(** The assignments of [setup_preferences] after the theme colour. *)
Definition input_settings : list (string * value) :=
  [("view.gizmo_size", VInt 120);
   ("inputs.use_numeric_input_advanced", VBool true);
   ("inputs.mouse_double_click_time", VInt 250);
   ("inputs.drag_threshold_mouse", VInt 5);
   ("inputs.drag_threshold", VInt 45);
   ("inputs.move_threshold", VInt 3);
   ("inputs.ndof_show_guide", VBool true);
   ("inputs.ndof_pan_yz_swap_axis", VBool true);
   ("inputs.use_zoom_to_mouse", VBool true)].

(** Everything of the host but the preferences and the key
    configuration. *)
Definition same_but_preferences (b b' : Bpy) : Prop :=
  app_version_string b' = app_version_string b /\
  data_screens b' = data_screens b /\
  data_cameras b' = data_cameras b /\
  space_at b' = space_at b /\
  camera_at b' = camera_at b /\
  context_scene b' = context_scene b /\
  context_view_layer b' = context_view_layer b.

(** The first theme after [face_select[3] = 0.4]: the fourth component
    is 0.4, the colour has as many components as before and the other
    components are as they were; the other themes are as they were. *)
Definition alpha_set (ths ths' : list Theme) : Prop :=
  length ths' = length ths /\
  (forall i, i <> 0%nat -> ths' !! i = ths !! i) /\
  exists th th',
    ths !! 0%nat = Some th /\ ths' !! 0%nat = Some th' /\
    length (view_3d_face_select th') = length (view_3d_face_select th) /\
    view_3d_face_select th' !! 3%nat = Some (VFloat (PyFloat.lit "0.4")) /\
    forall j, j <> 3%nat ->
              view_3d_face_select th' !! j = view_3d_face_select th !! j.


(** The host with other preferences and another key configuration. *)
Definition with_preferences (p : Preferences) (kc : props) (b : Bpy) : Bpy :=
  {| app_version_string := app_version_string b;
     data_screens := data_screens b;
     data_cameras := data_cameras b;
     space_at := space_at b;
     camera_at := camera_at b;
     context_scene := context_scene b;
     context_view_layer := context_view_layer b;
     context_preferences := p;
     keyconfigs_default_preferences := kc |}.

(** A host without screens, cameras, themes and add-ons. *)
Definition bare_host : World :=
  {| bpy :=
       {| app_version_string := "2.83.0";
          data_screens := [];
          data_cameras := [];
          space_at := fun _ => Examples.console;
          camera_at := fun _ => {| camera_props := ∅ |};
          context_scene := ∅;
          context_view_layer := ∅;
          context_preferences :=
            {| pref_props := ∅; pref_themes := []; pref_addons := ∅ |};
          keyconfigs_default_preferences := ∅ |};
     trace := [] |}.

(** The screens [setup_scene_shading] works on. *)
Definition shading_screens : list string :=
  ["Layout"; "Modeling"; "Sculpting"; "UV Editing"; "Animation";
   "Scripting"].

(** The assignments of [setup_scene_shading] on a space. *)
Definition shading_settings : list (string * value) :=
  [("shading.type", VStr "SOLID");
   ("shading.light", VStr "STUDIO");
   ("shading.color_type", VStr "RANDOM");
   ("shading.show_cavity", VBool true);
   ("shading.cavity_type", VStr "BOTH");
   ("shading.cavity_ridge_factor", VFloat (PyFloat.lit "0.8"));
   ("shading.cavity_valley_factor", VFloat (PyFloat.lit "1.0"));
   ("shading.curvature_ridge_factor", VFloat (PyFloat.lit "0.8"));
   ("shading.curvature_valley_factor", VFloat (PyFloat.lit "1.0"))].

(** The assignments of [setup_scene_outliner] on a space. *)
Definition outliner_settings : list (string * value) :=
  [("show_restrict_column_select", VBool true);
   ("show_restrict_column_render", VBool true)].

(** The assignment of [setup_scene_scripting] on a space. *)
Definition scripting_settings : list (string * value) :=
  [("font_size", VInt 16)].

Definition assign_space (kvs : list (string * value)) (sp : Space) : Space :=
  {| space_type := space_type sp;
     space_display_mode := space_display_mode sp;
     space_props := assign_all kvs (space_props sp) |}.

(** [sp'] is [sp] with the properties of the table assigned: type and
    display mode are as they were. *)
Definition space_updated_by (kvs : list (string * value)) (sp sp' : Space)
  : Prop :=
  space_type sp' = space_type sp /\
  space_display_mode sp' = space_display_mode sp /\
  updated_by kvs (space_props sp) (space_props sp').

(** The references [get_spaces] returns: spaces of an exposed area that
    pass the filters. *)
Definition target (b : Bpy) (type_name : string)
    (display_mode : option string) (screen_names : option (list string))
    (r : ref) : Prop :=
  exists screen area,
    screen ∈ data_screens b /\ area ∈ screen_areas screen /\
    r ∈ area_spaces area /\
    selected b type_name display_mode screen_names (screen, area, r).

(** A loop body that changes the space behind its argument by [G] and
    nothing else. *)
Definition assigns_space (body : ref -> M unit) (G : Space -> Space) : Prop :=
  forall r w, exists w',
    body r w = (w', inr tt) /\ trace w' = trace w /\
    same_but_spaces (bpy w) (bpy w') /\
    forall r', space_at (bpy w') r' =
               if decide (r' = r) then G (space_at (bpy w) r')
               else space_at (bpy w) r'.

(** What the script iterates over and reads: the version string, the
    screens with their areas and space references, the camera collection,
    and the type and display mode of every space. *)
Definition same_layout (b b' : Bpy) : Prop :=
  app_version_string b' = app_version_string b /\
  data_screens b' = data_screens b /\
  data_cameras b' = data_cameras b /\
  forall r,
    space_type (space_at b' r) = space_type (space_at b r) /\
    space_display_mode (space_at b' r) = space_display_mode (space_at b r).

(** A computation that keeps the layout, whether it returns or raises. *)
Definition keeps_layout {A} (m : M A) : Prop :=
  forall w, same_layout (bpy w) (bpy (m w).1).

(** The routines of a complete run, in order. *)
Definition all_setters : list string :=
  ["setup_scene_cycles"; "setup_scene_shading"; "setup_scene_outliner";
   "setup_scene_clipping"; "setup_scene_scripting"; "setup_preferences"].

(** Every character. *)
Definition all_ascii : list ascii := map ascii_of_nat (seq 0 256).

(** Whether [float] rejects the four characters [a.b.]. *)
Definition two_dots_rejected (a b : ascii) : bool :=
  match PyFloat.of_string (String a (String "." (String b (String "." ""))))
  with None => true | Some _ => false end.

(** [float] on a string without outer white space: the part of
    [PyFloat.of_string] after [PyFloat.strip]. *)
Definition of_stripped (l : list ascii) : option PyFloat.float :=
  body ← PyFloat.drop_underscores "000" l;
  let '(neg, r) := PyFloat.take_sign body in
  match PyFloat.parse_decimal r with
  | Some (m, e) => Some (PyFloat.round_decimal neg m e)
  | None => PyFloat.parse_special neg r
  end.

(** The characters of a stripped string that [float] reads as a finite
    number: digits, the point, the exponent mark, the signs and the
    underscore. *)
Definition number_alphabet : list ascii :=
  list_ascii_of_string "0123456789.eE+-_".

Definition number_char (c : ascii) : bool :=
  PyFloat.is_digit c ||
  existsb (Ascii.eqb c) (list_ascii_of_string ".eE+-_").

(** A stripped string either is [2.83] or is not read as the float
    2.83. *)
Definition only_2_83 (l : list ascii) : bool :=
  match of_stripped l with
  | Some x =>
      implb (PyFloat.eqb (PyFloat.lit "2.83") x)
            (String.eqb (string_of_list_ascii l) "2.83")
  | None => true
  end.

(** The assignments of [setup_scene_clipping] on a space or camera. *)
Definition clipping_settings : list (string * value) :=
  [("clip_start", VFloat (PyFloat.lit "0.001")); ("clip_end", VInt 1000)].

Definition assign_camera (kvs : list (string * value)) (c : Camera) : Camera :=
  {| camera_props := assign_all kvs (camera_props c) |}.

(** The references a lookup returns. *)
Definition looked_up (b : Bpy) (type_name : string)
    (display_mode : option string) (screen_names : option (list string))
  : list ref :=
  (filter (selected b type_name display_mode screen_names)
          (exposed_spaces b)).*2.

(** The assignments a complete run makes on the space behind [r], in
    order: those of the shading, outliner, clipping and scripting
    routines, each when its lookup returns [r]. *)
Definition space_table (b : Bpy) (r : ref) : list (string * value) :=
  (if decide (r ∈ looked_up b "VIEW_3D" None (Some shading_screens))
   then shading_settings else []) ++
  (if decide (r ∈ looked_up b "OUTLINER" (Some "VIEW_LAYER") None)
   then outliner_settings else []) ++
  (if decide (r ∈ looked_up b "VIEW_3D" None None)
   then clipping_settings else []) ++
  (if decide (r ∈ looked_up b "CONSOLE" None None)
   then scripting_settings else []).

(** The assignments a complete run makes on the camera behind [r]. *)
Definition camera_table (b : Bpy) (r : ref) : list (string * value) :=
  if decide (r ∈ data_cameras b) then clipping_settings else [].

(** ** Floats *)

Section FloatFacts.

(** Equality with a finite float is equality of representations. *)
Lemma eqb_finite_inv s m e x :
  PyFloat.eqb (S754_finite s m e) x = true -> x = S754_finite s m e.
Proof.
  unfold PyFloat.eqb, SFeqb.
  destruct x as [s'|s'| |s' m' e']; simpl;
    try (destruct s; discriminate); try (destruct s'; discriminate).
  change (PosDef.Pos.compare_cont Eq m m') with (Pos.compare m m').
  destruct s, s'; try discriminate;
    destruct (Z.compare_spec e e') as [->| |]; try discriminate;
    destruct (Pos.compare_spec m m') as [->| |]; simpl;
    try discriminate; reflexivity.
Qed.

Lemma eqb_finite_refl s m e :
  PyFloat.eqb (S754_finite s m e) (S754_finite s m e) = true.
Proof.
  unfold PyFloat.eqb, SFeqb. simpl.
  change (PosDef.Pos.compare_cont Eq m m) with (Pos.compare m m).
  rewrite Z.compare_refl, Pos.compare_refl.
  destruct s; reflexivity.
Qed.

(** [float] on some version prefixes. *)
Example float_2_83 :
  PyFloat.of_string "2.83" = Some (S754_finite false 6372593472729252 (-51)).
Proof. vm_compute. reflexivity. Qed.

Example float_2_90 :
  PyFloat.of_string "2.90" = PyFloat.of_string "2.9" /\
  PyFloat.of_string "2.90" = Some (S754_finite false 6530219459687219 (-51)).
Proof. split; vm_compute; reflexivity. Qed.

Example float_3_0_dot : PyFloat.of_string "3.0." = None.
Proof. vm_compute. reflexivity. Qed.

Example float_padded :
  PyFloat.of_string " 2.8" = PyFloat.of_string "2.8" /\
  PyFloat.of_string "2_8" = PyFloat.of_string "28" /\
  PyFloat.of_string "2__8" = None /\
  PyFloat.of_string "-inF" = Some (S754_infinity true) /\
  PyFloat.of_string "1e-9" = Some (S754_finite false 4835703278458517 (-82)).
Proof. repeat split; vm_compute; reflexivity. Qed.

(** The literal [2.83] is the double 0x1.6a3d70a3d70a4p+1. *)
Lemma lit_2_83 :
  PyFloat.lit "2.83" = S754_finite false 6372593472729252 (-51).
Proof. vm_compute. reflexivity. Qed.

(** The literal [0.001] is the double 0x1.0624dd2f1a9fcp-10. *)
Lemma lit_0_001 :
  PyFloat.lit "0.001" = S754_finite false 4611686018427388 (-62).
Proof. vm_compute. reflexivity. Qed.

Lemma float_in_2_83 x :
  float_in x [PyFloat.lit "2.83"] = true <->
  x = S754_finite false 6372593472729252 (-51).
Proof.
  rewrite lit_2_83. unfold float_in. simpl. rewrite orb_false_r. split.
  - apply eqb_finite_inv.
  - intros ->. apply eqb_finite_refl.
Qed.

End FloatFacts.

(** ** Lists built by loops and filters *)

Section ListFacts.
Context {A B : Type}.

Lemma fold_left_snoc (l acc : list A) :
  fold_left (fun acc x => acc ++ [x]) l acc = acc ++ l.
Proof.
  revert acc. induction l as [|x l IH]; intros acc; simpl.
  - by rewrite app_nil_r.
  - by rewrite IH, <- app_assoc.
Qed.

Lemma fold_left_collect (g : list B -> A -> list B) (F : A -> list B) :
  (forall acc x, g acc x = acc ++ F x) ->
  forall l acc, fold_left g l acc = acc ++ (l ≫= F).
Proof.
  intros Hg l. induction l as [|x l IH]; intros acc; simpl.
  - by rewrite app_nil_r.
  - by rewrite IH, Hg, <- app_assoc.
Qed.

Lemma filter_as_bind (P : A -> Prop) `{!forall x, Decision (P x)} (l : list A) :
  filter P l = l ≫= (fun x => if decide (P x) then [x] else []).
Proof.
  induction l as [|x l IH]; [done|].
  rewrite filter_cons, bind_cons, IH. by destruct (decide (P x)).
Qed.

Lemma bind_filter (P : A -> Prop) `{!forall x, Decision (P x)}
    (f : A -> list B) (l : list A) :
  filter P l ≫= f = l ≫= (fun x => if decide (P x) then f x else []).
Proof.
  induction l as [|x l IH]; [done|].
  rewrite filter_cons, bind_cons, <- IH.
  destruct (decide (P x)); [by rewrite bind_cons | done].
Qed.

Lemma filter_bind (P : B -> Prop) `{!forall x, Decision (P x)}
    (f : A -> list B) (l : list A) :
  filter P (l ≫= f) = l ≫= (fun x => filter P (f x)).
Proof.
  induction l as [|x l IH]; [done|].
  by rewrite !bind_cons, filter_app, IH.
Qed.

Lemma fmap_bind {C} (g : B -> C) (f : A -> list B) (l : list A) :
  g <$> (l ≫= f) = l ≫= (fun x => g <$> f x).
Proof.
  induction l as [|x l IH]; [done|].
  by rewrite !bind_cons, fmap_app, IH.
Qed.

Lemma bind_nil_all (l : list A) : l ≫= (fun _ => @nil B) = [].
Proof. induction l as [|x l IH]; [done|]. by rewrite bind_cons, IH. Qed.

End ListFacts.


(** Case analysis on every decision in the goal. *)
Ltac decide_all :=
  repeat match goal with
         | |- context [decide ?Q] => destruct (decide Q)
         end.

Ltac decide_cases :=
  decide_all; first [reflexivity | exfalso; intuition (auto; congruence)].

Section GetSpaces.
Variable b : Bpy.
Variable type_name : string.
Variable display_mode : option string.
Variable screen_names : option (list string).

Lemma selected_one screen area sp :
  (filter (selected b type_name display_mode screen_names)
          [(screen, area, sp)]).*2 =
  if decide (selected b type_name display_mode screen_names
               (screen, area, sp))
  then [sp] else [].
Proof. rewrite filter_cons. by destruct (decide _). Qed.

(** The spaces kept in one area by the two inner filters. *)
Lemma spaces_of_area (area : Area) :
  (let spaces := filter (fun sp => space_type (space_at b sp) = type_name)
                        (area_spaces area) in
   if truthy_str display_mode
   then filter (fun sp => Some (space_display_mode (space_at b sp))
                          = display_mode) spaces
   else spaces) =
  area_spaces area ≫= (fun sp =>
    if decide (space_type (space_at b sp) = type_name ∧
               (truthy_str display_mode = true ->
                Some (space_display_mode (space_at b sp)) = display_mode))
    then [sp] else []).
Proof.
  cbv zeta. destruct (truthy_str display_mode).
  - rewrite list_filter_filter, filter_as_bind.
    apply list_bind_ext; [|done]. intros sp.
    decide_cases.
  - rewrite filter_as_bind.
    apply list_bind_ext; [|done]. intros sp.
    decide_cases.
Qed.

Lemma spaces_of_screen (screen : Screen) :
  (filter (selected b type_name display_mode screen_names)
          (area ← screen_areas screen;
           sp ← area_spaces area; [(screen, area, sp)])).*2 =
  if decide (truthy_list screen_names = true ->
             screen_name screen ∈ default [] screen_names)
  then
    filter (fun area => area_type area = type_name) (screen_areas screen)
      ≫= (fun area =>
            let spaces :=
              filter (fun sp => space_type (space_at b sp) = type_name)
                     (area_spaces area) in
            if truthy_str display_mode
            then filter (fun sp => Some (space_display_mode (space_at b sp))
                                   = display_mode) spaces
            else spaces)
  else [].
Proof.
  rewrite filter_bind, fmap_bind, bind_filter.
  destruct (decide _) as [Hn|Hn].
  - apply list_bind_ext; [|done]. intros area.
    rewrite filter_bind, fmap_bind, spaces_of_area.
    destruct (decide (area_type area = type_name)) as [Ha|Ha].
    + apply list_bind_ext; [|done]. intros sp. rewrite selected_one.
      unfold selected; simpl. decide_cases.
    + trans (area_spaces area ≫= (fun _ => @nil ref));
        [|apply bind_nil_all].
      apply list_bind_ext; [|done]. intros sp. rewrite selected_one.
      unfold selected; simpl. decide_cases.
  - trans (screen_areas screen ≫= (fun _ => @nil ref));
      [|apply bind_nil_all].
    apply list_bind_ext; [|done]. intros area.
    rewrite filter_bind, fmap_bind.
    trans (area_spaces area ≫= (fun _ => @nil ref));
      [|apply bind_nil_all].
    apply list_bind_ext; [|done]. intros sp. rewrite selected_one.
    unfold selected; simpl. decide_cases.
Qed.

End GetSpaces.

Lemma get_spaces_run self type_name display_mode screen_names w :
  get_spaces self type_name display_mode screen_names w =
  (w, inr (filter (selected (bpy w) type_name display_mode screen_names)
                  (exposed_spaces (bpy w))).*2).
Proof.
  unfold get_spaces, mbind, M_bind, get_bpy, mret, M_ret.
  do 2 f_equal.
  set (b := bpy w).
  set (S := fun area : Area =>
    let spaces := filter (fun sp => space_type (space_at b sp) = type_name)
                         (area_spaces area) in
    if truthy_str display_mode
    then filter (fun sp => Some (space_display_mode (space_at b sp))
                           = display_mode) spaces
    else spaces).
  set (G := fun screen : Screen =>
    filter (fun area => area_type area = type_name) (screen_areas screen)
      ≫= S).
  rewrite (fold_left_collect _ G).
  2:{ intros acc screen. rewrite (fold_left_collect _ S); [done|].
      intros acc' area. by rewrite fold_left_snoc. }
  rewrite app_nil_l.
  unfold exposed_spaces. rewrite filter_bind, fmap_bind.
  transitivity (data_screens b ≫= (fun screen =>
    if decide (truthy_list screen_names = true ->
               screen_name screen ∈ default [] screen_names)
    then G screen else [])).
  - destruct (truthy_list screen_names).
    + rewrite bind_filter. apply list_bind_ext; [|done]. intros screen.
      decide_cases.
    + apply list_bind_ext; [|done]. intros screen.
      decide_cases.
  - apply list_bind_ext; [|done]. intros screen.
    by rewrite spaces_of_screen.
Qed.

(** ** Running script code *)

Section Running.

Lemma bind_run {A B} (m : M A) (f : A -> M B) w :
  (m ≫= f) w =
  match m w with
  | (w', inr a) => f a w'
  | (w', inl e) => (w', inl e)
  end.
Proof. reflexivity. Qed.

Lemma print_run line w :
  print line w = ({| bpy := bpy w; trace := trace w ++ [Print line] |}, inr tt).
Proof. reflexivity. Qed.

Lemma enter_run routine w :
  enter routine w =
  ({| bpy := bpy w; trace := trace w ++ [Call routine] |}, inr tt).
Proof. reflexivity. Qed.

Lemma init_run w :
  __init__ w =
  (w, match PyFloat.of_string (version_prefix (bpy w)) with
      | Some v => inr {| ver := v; supports := [PyFloat.lit "2.83"] |}
      | None => inl ValueError
      end).
Proof.
  unfold __init__. rewrite bind_run. simpl.
  by destruct (PyFloat.of_string _).
Qed.

Lemma silent_ret {A} (a : A) : silent (mret a).
Proof. intros w. by exists w, a. Qed.

Lemma silent_bind {A B} (m : M A) (f : A -> M B) :
  silent m -> (forall a, silent (f a)) -> silent (m ≫= f).
Proof.
  intros Hm Hf w. destruct (Hm w) as (w1 & a & E1 & T1 & P1).
  destruct (Hf a w1) as (w2 & c & E2 & T2 & P2).
  exists w2, c. rewrite bind_run, E1, E2. repeat split; congruence.
Qed.

Lemma silent_for_each {A} (l : list A) (body : A -> M unit) :
  (forall x, silent (body x)) -> silent (for_each l body).
Proof.
  intros Hb. induction l as [|x l IH]; simpl.
  - apply silent_ret.
  - apply silent_bind; auto.
Qed.

Lemma silent_get_bpy : silent get_bpy.
Proof. intros w. by exists w, (bpy w). Qed.

Lemma silent_get_spaces self t dm sn : silent (get_spaces self t dm sn).
Proof. intros w. rewrite get_spaces_run. by eexists _, _. Qed.

Lemma silent_scene_set k v : silent (scene_set k v).
Proof. intros w. by eexists _, _. Qed.

Lemma silent_view_layer_set k v : silent (view_layer_set k v).
Proof. intros w. by eexists _, _. Qed.

Lemma silent_space_set r k v : silent (space_set r k v).
Proof. intros w. by eexists _, _. Qed.

Lemma silent_camera_set r k v : silent (camera_set r k v).
Proof. intros w. by eexists _, _. Qed.

Lemma silent_pref_set k v : silent (pref_set k v).
Proof.
  intros w. unfold pref_set. rewrite bind_run. simpl.
  eexists _, _. split; [reflexivity|]. by split.
Qed.

Lemma silent_keyconfig_preferences_set k v :
  silent (keyconfig_preferences_set k v).
Proof. intros w. by eexists _, _. Qed.

Lemma finishes_silent (R : Bpy -> Prop) (m k : M unit) :
  (forall b b', registry b' = registry b -> R b' <-> R b) ->
  silent m -> finishes R k -> finishes R (m;; k).
Proof.
  intros HR Hm Hk w. destruct (Hm w) as (w1 & [] & E1 & T1 & P1).
  destruct (Hk w1) as (w2 & r & E2 & T2 & Hr).
  exists w2, r. rewrite bind_run, E1, E2.
  split; [done|]. split; [congruence|]. by rewrite Hr, (HR _ _ P1).
Qed.

Lemma addons_ready_registry b b' :
  registry b' = registry b -> addons_ready b' <-> addons_ready b.
Proof. unfold registry, addons_ready. by intros [= _ ->]. Qed.

Lemma preferences_ready_registry b b' :
  registry b' = registry b -> preferences_ready b' <-> preferences_ready b.
Proof. unfold registry, preferences_ready, themes_ready, addons_ready.
  by intros [= -> ->]. Qed.

Lemma finishes_addon k v :
  finishes addons_ready (addon_preferences_set "cycles" k v).
Proof.
  intros w. unfold addons_ready, addon_preferences_set.
  rewrite bind_run. simpl.
  destruct (pref_addons (context_preferences (bpy w)) !! "cycles") as [a|].
  - eexists _, _. split; [reflexivity|]. by split.
  - eexists _, _. split; [reflexivity|]. split; [done|].
    split; [done|]. by intros [? [=]].
Qed.

Lemma finishes_theme v (k : M unit) :
  finishes addons_ready k ->
  finishes preferences_ready (theme_face_select_set 0 3 v;; k).
Proof.
  intros Hk w.
  unfold preferences_ready, themes_ready, theme_face_select_set,
    set_preferences, modify_bpy.
  rewrite !bind_run. simpl.
  destruct (pref_themes (context_preferences (bpy w)) !! 0%nat) as [th|].
  2:{ eexists _, _. split; [reflexivity|]. split; [done|].
      split; [done|]. by intros [(? & [=] & _) _]. }
  destruct (decide (3 < length (view_3d_face_select th))%nat) as [Hlen|Hlen].
  2:{ eexists _, _. split; [reflexivity|]. split; [done|].
      split; [done|]. intros [(? & [= <-] & ?) _]. lia. }
  match goal with |- context [k ?w1] =>
    destruct (Hk w1) as (w2 & r & -> & T2 & Hr) end.
  exists w2, r. split; [done|]. split; [done|].
  rewrite Hr. unfold addons_ready. simpl. split; [|tauto].
  intros Ha. split; [by exists th | done].
Qed.

End Running.

(** Splits a computation into its statements and closes each. *)
Ltac silence :=
  repeat match goal with
         | |- silent (_ ≫= _) => apply silent_bind; [|intros ?]
         | |- silent (for_each _ _) => apply silent_for_each; intros ?
         | |- silent (mret _) => apply silent_ret
         | |- silent get_bpy => apply silent_get_bpy
         | |- silent (get_spaces _ _ _ _) => apply silent_get_spaces
         | |- silent (scene_set _ _) => apply silent_scene_set
         | |- silent (view_layer_set _ _) => apply silent_view_layer_set
         | |- silent (space_set _ _ _) => apply silent_space_set
         | |- silent (camera_set _ _ _) => apply silent_camera_set
         | |- silent (pref_set _ _) => apply silent_pref_set
         | |- silent (keyconfig_preferences_set _ _) =>
             apply silent_keyconfig_preferences_set
         end.

Section Setters.
Variable self : BlenderCustomSettings.

(** A routine that logs its entry and is silent afterwards. *)
Lemma enter_then_silent name (rest : M unit) w :
  silent rest ->
  exists w', (enter name;; rest) w = (w', inr tt) /\
             trace w' = trace w ++ [Call name] /\
             registry (bpy w') = registry (bpy w).
Proof.
  intros Hr. rewrite bind_run. simpl.
  destruct (Hr {| bpy := bpy w; trace := trace w ++ [Call name] |})
    as (w' & [] & E & T & P).
  exists w'. by rewrite E.
Qed.

Lemma setup_scene_cycles_run w :
  exists w', setup_scene_cycles self w = (w', inr tt) /\
             trace w' = trace w ++ [Call "setup_scene_cycles"] /\
             registry (bpy w') = registry (bpy w).
Proof.
  unfold setup_scene_cycles. apply enter_then_silent. silence. Qed.

Lemma setup_scene_shading_run w :
  exists w', setup_scene_shading self w = (w', inr tt) /\
             trace w' = trace w ++ [Call "setup_scene_shading"] /\
             registry (bpy w') = registry (bpy w).
Proof.
  unfold setup_scene_shading. apply enter_then_silent. silence. Qed.

Lemma setup_scene_outliner_run w :
  exists w', setup_scene_outliner self w = (w', inr tt) /\
             trace w' = trace w ++ [Call "setup_scene_outliner"] /\
             registry (bpy w') = registry (bpy w).
Proof.
  unfold setup_scene_outliner. apply enter_then_silent. silence. Qed.

Lemma setup_scene_clipping_quiet w :
  exists w', setup_scene_clipping self w = (w', inr tt) /\
             trace w' = trace w ++ [Call "setup_scene_clipping"] /\
             registry (bpy w') = registry (bpy w).
Proof.
  unfold setup_scene_clipping. apply enter_then_silent. silence. Qed.

Lemma setup_scene_scripting_run w :
  exists w', setup_scene_scripting self w = (w', inr tt) /\
             trace w' = trace w ++ [Call "setup_scene_scripting"] /\
             registry (bpy w') = registry (bpy w).
Proof.
  unfold setup_scene_scripting. apply enter_then_silent. silence. Qed.

Lemma setup_preferences_run w :
  exists w' r, setup_preferences self w = (w', r) /\
               trace w' = trace w ++ [Call "setup_preferences"] /\
               (r = inr tt <-> preferences_ready (bpy w)).
Proof.
  unfold setup_preferences. rewrite bind_run. simpl.
  match goal with |- context [?k {| bpy := _; trace := ?t |}] =>
    assert (finishes preferences_ready k) as Hk end.
  { do 10 (apply finishes_silent;
             [apply preferences_ready_registry | silence |]).
    apply finishes_theme.
    do 10 (apply finishes_silent;
             [apply addons_ready_registry | silence |]).
    apply finishes_addon. }
  match goal with |- context [?k ?w1] =>
    destruct (Hk w1) as (w2 & r & -> & T2 & Hr) end.
  by exists w2, r.
Qed.

End Setters.

(** ** The loops of the setters *)

Section Loops.

Lemma insert2_idemp (k1 k2 : string) (v1 v2 : value) (p : props) :
  <[k2:=v2]> (<[k1:=v1]> (<[k2:=v2]> (<[k1:=v1]> p))) =
  <[k2:=v2]> (<[k1:=v1]> p).
Proof.
  apply map_eq. intros i. rewrite !lookup_insert.
  decide_all; congruence.
Qed.

Lemma for_each_space_set k1 v1 k2 v2 l w :
  exists w',
    for_each l (fun space =>
      space_set space k1 v1;; space_set space k2 v2) w = (w', inr tt) /\
    trace w' = trace w /\
    same_but_spaces (bpy w) (bpy w') /\
    forall r,
      space_at (bpy w') r =
      if decide (r ∈ l)
      then set_space_props k2 v2 (set_space_props k1 v1 (space_at (bpy w) r))
      else space_at (bpy w) r.
Proof.
  revert w. induction l as [|x l IH]; intros w.
  - exists w. split; [done|]. split; [done|]. split; [by repeat split|].
    intros r. destruct (decide (r ∈ [])) as [Hr|]; [|done].
    by apply not_elem_of_nil in Hr.
  - simpl. rewrite !bind_run. simpl.
    match goal with |- context [for_each l _ ?w1] =>
      destruct (IH w1) as (w' & -> & T & F & S) end.
    exists w'. split; [done|]. split; [done|].
    split; [exact F|]. intros r. rewrite S. simpl. unfold update_at.
    destruct (decide (r ∈ l)) as [Hl|Hl];
      destruct (decide (r = x)) as [->|Hx];
      destruct (decide (_ ∈ x :: l)) as [Hxl|Hxl]; try done.
    + unfold set_space_props. simpl. by rewrite insert2_idemp.
    + exfalso. apply Hxl. by left.
    + exfalso. apply Hxl. by right.
    + exfalso. apply Hxl. by left.
    + apply elem_of_cons in Hxl as [?|?]; done.
Qed.

Lemma for_each_camera_set k1 v1 k2 v2 l w :
  exists w',
    for_each l (fun cam =>
      camera_set cam k1 v1;; camera_set cam k2 v2) w = (w', inr tt) /\
    trace w' = trace w /\
    same_but_cameras (bpy w) (bpy w') /\
    forall r,
      camera_at (bpy w') r =
      if decide (r ∈ l)
      then set_camera_props k2 v2
             (set_camera_props k1 v1 (camera_at (bpy w) r))
      else camera_at (bpy w) r.
Proof.
  revert w. induction l as [|x l IH]; intros w.
  - exists w. split; [done|]. split; [done|]. split; [by repeat split|].
    intros r. destruct (decide (r ∈ [])) as [Hr|]; [|done].
    by apply not_elem_of_nil in Hr.
  - simpl. rewrite !bind_run. simpl.
    match goal with |- context [for_each l _ ?w1] =>
      destruct (IH w1) as (w' & -> & T & F & S) end.
    exists w'. split; [done|]. split; [done|].
    split; [exact F|]. intros r. rewrite S. simpl. unfold update_at.
    destruct (decide (r ∈ l)) as [Hl|Hl];
      destruct (decide (r = x)) as [->|Hx];
      destruct (decide (_ ∈ x :: l)) as [Hxl|Hxl]; try done.
    + unfold set_camera_props. simpl. by rewrite insert2_idemp.
    + exfalso. apply Hxl. by left.
    + exfalso. apply Hxl. by right.
    + exfalso. apply Hxl. by left.
    + apply elem_of_cons in Hxl as [?|?]; done.
Qed.

Lemma elem_of_exposed_spaces b screen area sp :
  (screen, area, sp) ∈ exposed_spaces b <->
  screen ∈ data_screens b /\ area ∈ screen_areas screen /\
  sp ∈ area_spaces area.
Proof.
  unfold exposed_spaces. rewrite list_elem_of_bind. split.
  - intros (sc & Hin & Hsc). apply list_elem_of_bind in Hin as (ar & Hin & Har).
    apply list_elem_of_bind in Hin as (r & Hin & Hr).
    apply list_elem_of_singleton in Hin as [= -> -> ->]. done.
  - intros (Hsc & Har & Hr). exists screen. split; [|done].
    apply list_elem_of_bind. exists area. split; [|done].
    apply list_elem_of_bind. exists sp. split; [|done].
    by apply list_elem_of_singleton.
Qed.

Lemma elem_of_viewports b r :
  r ∈ (filter (selected b "VIEW_3D" None None) (exposed_spaces b)).*2 <->
  viewport b r.
Proof.
  rewrite list_elem_of_fmap. unfold viewport. split.
  - intros ([[screen area] sp] & -> & Hin).
    apply list_elem_of_filter in Hin as [(Ha & Ht & _) Hin].
    apply elem_of_exposed_spaces in Hin as (? & ? & ?).
    by exists screen, area.
  - intros (screen & area & Hsc & Har & Ha & Hr & Ht).
    exists (screen, area, r). split; [done|].
    apply list_elem_of_filter. split.
    + by repeat split.
    + by apply elem_of_exposed_spaces.
Qed.

End Loops.

(** ** The version guard *)

Lemma init_inv w bcs :
  (__init__ w).2 = inr bcs ->
  PyFloat.of_string (version_prefix (bpy w)) = Some (ver bcs) /\
  supports bcs = [PyFloat.lit "2.83"] /\
  __init__ w = (w, inr bcs).
Proof.
  rewrite init_run. simpl.
  destruct (PyFloat.of_string _) as [v|]; [|discriminate].
  by intros [= <-].
Qed.

Lemma invoked_app t1 t2 : invoked (t1 ++ t2) = invoked t1 ++ invoked t2.
Proof. apply omap_app. Qed.

Lemma printed_app t1 t2 : printed (t1 ++ t2) = printed t1 ++ printed t2.
Proof. apply omap_app. Qed.

(** C3: [check_version] returns true exactly when the detected version,
    the float parsed from the first four characters of the host version
    string, is a member of [self.supports]; that list holds exactly the
    float 2.83. *)
Theorem check_version_iff_supported w bcs :
  (__init__ w).2 = inr bcs ->
  PyFloat.of_string (substring 0 4 (app_version_string (bpy w)))
    = Some (ver bcs) /\
  supports bcs = [S754_finite false 6372593472729252 (-51)] /\
  (check_version bcs = true <->
   exists x, x ∈ supports bcs /\ PyFloat.eqb x (ver bcs) = true) /\
  (check_version bcs = true <->
   ver bcs = S754_finite false 6372593472729252 (-51)).
Proof.
  intros H. apply init_inv in H as (Hv & Hs & _).
  split; [exact Hv|]. split; [by rewrite Hs, lit_2_83|]. split.
  - unfold check_version, float_in. rewrite existsb_exists.
    by setoid_rewrite list_elem_of_In.
  - unfold check_version. rewrite Hs. apply float_in_2_83.
Qed.

Lemma check_version_iff_supported_witness :
  (__init__ (studio "2.83.0" true)).2 = inr release_2_83 /\
  check_version release_2_83 = true.
Proof.
  split; [vm_compute; reflexivity|].
  apply (check_version_iff_supported (studio "2.83.0" true) release_2_83);
    vm_compute; reflexivity.
Defined.

(** C10: the version guard depends only on the first four characters of
    the host version string, and every version string that starts with
    2.83 is supported. *)
Theorem version_guard_first_four :
  (forall w1 w2,
     substring 0 4 (app_version_string (bpy w1)) =
     substring 0 4 (app_version_string (bpy w2)) ->
     version_guard w1 = version_guard w2) /\
  (forall w rest,
     app_version_string (bpy w) = "2.83" +:+ rest ->
     version_guard w = inr true).
Proof.
  split.
  - intros w1 w2 H. unfold version_guard. rewrite !init_run.
    unfold version_prefix. by rewrite H.
  - intros w rest H. unfold version_guard. rewrite init_run.
    unfold version_prefix. rewrite H.
    change (substring 0 4 ("2.83" +:+ rest)) with ("2.83" +:+ substring 0 0 rest).
    replace (substring 0 0 rest) with "" by (by destruct rest).
    vm_compute. reflexivity.
Qed.

Lemma version_guard_first_four_witness :
  version_guard (studio "2.83.0" true) = version_guard (studio "2.83.12" false)
  /\ version_guard (studio "2.83.5" false) = inr true.
Proof.
  split.
  - apply (proj1 version_guard_first_four). vm_compute. reflexivity.
  - apply (proj2 version_guard_first_four _ ".5"). vm_compute. reflexivity.
Defined.

(** ** The entry point *)

(** C1: when the detected version is not in the supported list, the entry
    point prints the unsupported-version message, enters none of the
    setter routines and leaves the host state as it was. *)
Theorem unsupported_version_only_prints w bcs :
  (__init__ w).2 = inr bcs ->
  check_version bcs = false ->
  (main w).2 = inr tt /\
  bpy (main w).1 = bpy w /\
  trace (main w).1 =
    trace w ++ [Print "BlenderCustomSettings: Unsupported version!"] /\
  printed (trace (main w).1) =
    printed (trace w) ++ ["BlenderCustomSettings: Unsupported version!"] /\
  invoked (trace (main w).1) = invoked (trace w).
Proof.
  intros H Hc. apply init_inv in H as (_ & _ & H).
  unfold main. rewrite bind_run, H, Hc, print_run.
  cbv beta iota delta [fst snd bpy trace].
  repeat split; [by rewrite printed_app | by rewrite invoked_app, app_nil_r].
Qed.

Lemma unsupported_version_only_prints_witness :
  ((__init__ (studio "2.90.0" true)).2 = inr release_2_90 /\
   check_version release_2_90 = false) /\
  (main (studio "2.90.0" true)).2 = inr tt /\
  bpy (main (studio "2.90.0" true)).1 = bpy (studio "2.90.0" true) /\
  printed (trace (main (studio "2.90.0" true)).1) =
    ["BlenderCustomSettings: Unsupported version!"].
Proof.
  assert ((__init__ (studio "2.90.0" true)).2 = inr release_2_90) as H1
    by (vm_compute; reflexivity).
  assert (check_version release_2_90 = false) as H2
    by (vm_compute; reflexivity).
  split; [by split|].
  destruct (unsupported_version_only_prints _ _ H1 H2) as (? & ? & _ & ? & _).
  by repeat split.
Defined.

(** C5, at the version string of Blender 3.0.0: the first four characters
    are [3.0.], the constructor raises [ValueError], and the entry point
    neither prints nor reaches the version check. *)
Theorem version_3_0_0_raises w :
  app_version_string (bpy w) = "3.0.0" ->
  main w = (w, inl ValueError).
Proof.
  intros H. unfold main. rewrite bind_run, init_run.
  unfold version_prefix. rewrite H. vm_compute. reflexivity.
Qed.

Lemma version_3_0_0_raises_witness :
  app_version_string (bpy (studio "3.0.0" true)) = "3.0.0" /\
  (main (studio "3.0.0" true)).2 = inl ValueError /\
  printed (trace (main (studio "3.0.0" true)).1) = [].
Proof.
  split; [reflexivity|].
  rewrite (version_3_0_0_raises (studio "3.0.0" true) eq_refl).
  split; reflexivity.
Defined.

(** C2 as stated fails: on a host of a supported version without the
    Cycles add-on, [setup_preferences] raises [KeyError] and the entry
    point lets it through. *)
Lemma supported_version_may_raise :
  version_guard (studio "2.83.0" false) = inr true /\
  (main (studio "2.83.0" false)).2 = inl KeyError.
Proof. split; vm_compute; reflexivity. Qed.

(** C2, amended: when the detected version is in the supported list, the
    entry point enters the six setter routines once each, in the order
    cycles, shading, outliner, clipping, scripting, preferences; it
    returns without an exception exactly when the host has a first theme
    with a fourth [face_select] component and the Cycles add-on. *)
Theorem supported_version_runs_setters w bcs :
  (__init__ w).2 = inr bcs ->
  check_version bcs = true ->
  trace (main w).1 =
    trace w ++
    [Print "BlenderCustomSettings: Apply custom settings...";
     Call "setup_scene_cycles"; Call "setup_scene_shading";
     Call "setup_scene_outliner"; Call "setup_scene_clipping";
     Call "setup_scene_scripting"; Call "setup_preferences"] /\
  invoked (trace (main w).1) =
    invoked (trace w) ++
    ["setup_scene_cycles"; "setup_scene_shading"; "setup_scene_outliner";
     "setup_scene_clipping"; "setup_scene_scripting"; "setup_preferences"] /\
  ((main w).2 = inr tt <-> preferences_ready (bpy w)).
Proof.
  intros H Hc. apply init_inv in H as (_ & _ & H).
  unfold main. rewrite bind_run, H, Hc.
  rewrite bind_run, print_run.
  match goal with |- context [{| bpy := bpy w; trace := ?t |}] =>
    set (w0 := {| bpy := bpy w; trace := t |}) end.
  cbv beta iota.
  destruct (setup_scene_cycles_run bcs w0) as (w1 & E1 & T1 & R1).
  destruct (setup_scene_shading_run bcs w1) as (w2 & E2 & T2 & R2).
  destruct (setup_scene_outliner_run bcs w2) as (w3 & E3 & T3 & R3).
  destruct (setup_scene_clipping_quiet bcs w3) as (w4 & E4 & T4 & R4).
  destruct (setup_scene_scripting_run bcs w4) as (w5 & E5 & T5 & R5).
  destruct (setup_preferences_run bcs w5) as (w6 & r & E6 & T6 & Hr).
  rewrite bind_run, E1, bind_run, E2, bind_run, E3, bind_run, E4,
    bind_run, E5, E6.
  cbv beta iota delta [fst snd].
  assert (trace w6 = trace w ++
    [Print "BlenderCustomSettings: Apply custom settings...";
     Call "setup_scene_cycles"; Call "setup_scene_shading";
     Call "setup_scene_outliner"; Call "setup_scene_clipping";
     Call "setup_scene_scripting"; Call "setup_preferences"]) as T.
  { rewrite T6, T5, T4, T3, T2, T1. subst w0. cbn [trace].
    by rewrite <- !app_assoc. }
  split; [exact T|]. split; [by rewrite T, invoked_app|].
  rewrite Hr. apply preferences_ready_registry.
  rewrite R5, R4, R3, R2, R1. reflexivity.
Qed.

Lemma supported_version_runs_setters_witness :
  ((__init__ (studio "2.83.0" true)).2 = inr release_2_83 /\
   check_version release_2_83 = true) /\
  invoked (trace (main (studio "2.83.0" true)).1) =
    ["setup_scene_cycles"; "setup_scene_shading"; "setup_scene_outliner";
     "setup_scene_clipping"; "setup_scene_scripting"; "setup_preferences"].
Proof.
  assert ((__init__ (studio "2.83.0" true)).2 = inr release_2_83) as H1
    by (vm_compute; reflexivity).
  assert (check_version release_2_83 = true) as H2 by (vm_compute; reflexivity).
  split; [by split|].
  by destruct (supported_version_runs_setters _ _ H1 H2) as (_ & -> & _).
Defined.

(** ** The lookup helper *)

(** C4 as stated fails at three places: a space of the wanted type in an
    area of another type is left out; an empty display mode and an empty
    list of screen names filter nothing. *)
Lemma get_spaces_not_as_worded :
  ((get_spaces release_2_83 "VIEW_3D" None None (studio "2.83.0" true)).2
     = inr [0; 4]%nat /\
   get_spaces_by_spec (bpy (studio "2.83.0" true)) "VIEW_3D" None None
     = [0; 2; 4]%nat) /\
  ((get_spaces release_2_83 "OUTLINER" (Some "") None (studio "2.83.0" true)).2
     = inr [1]%nat /\
   get_spaces_by_spec (bpy (studio "2.83.0" true)) "OUTLINER" (Some "") None
     = []) /\
  ((get_spaces release_2_83 "VIEW_3D" None (Some []) (studio "2.83.0" true)).2
     = inr [0; 4]%nat /\
   get_spaces_by_spec (bpy (studio "2.83.0" true)) "VIEW_3D" None (Some [])
     = []).
Proof. repeat split; vm_compute; reflexivity. Qed.

(** C4, amended: [get_spaces] returns, in the host's iteration order over
    screens, areas and spaces, exactly the exposed spaces whose area has
    the type name, whose own type is the type name, whose display mode is
    the given one when a non-empty display mode is given, and whose
    screen's name is among the given names when a non-empty list of names
    is given; it changes nothing. *)
Theorem get_spaces_selects self type_name display_mode screen_names w :
  exists l,
    get_spaces self type_name display_mode screen_names w = (w, inr l) /\
    l = (filter (selected (bpy w) type_name display_mode screen_names)
                (exposed_spaces (bpy w))).*2 /\
    l `sublist_of` (exposed_spaces (bpy w)).*2 /\
    forall sp,
      sp ∈ l <->
      exists screen area,
        screen ∈ data_screens (bpy w) /\ area ∈ screen_areas screen /\
        sp ∈ area_spaces area /\
        area_type area = type_name /\
        space_type (space_at (bpy w) sp) = type_name /\
        (truthy_str display_mode = true ->
         Some (space_display_mode (space_at (bpy w) sp)) = display_mode) /\
        (truthy_list screen_names = true ->
         screen_name screen ∈ default [] screen_names).
Proof.
  eexists. split; [apply get_spaces_run|]. split; [reflexivity|]. split.
  - apply fmap_sublist, sublist_filter.
  - intros sp. rewrite list_elem_of_fmap. split.
    + intros ([[screen area] r] & -> & Hin).
      apply list_elem_of_filter in Hin as [Hsel Hin].
      apply elem_of_exposed_spaces in Hin as (? & ? & ?).
      exists screen, area. by destruct Hsel as (? & ? & ? & ?).
    + intros (screen & area & Hsc & Har & Hsp & Hsel).
      exists (screen, area, sp). split; [done|].
      apply list_elem_of_filter. split; [exact Hsel|].
      by apply elem_of_exposed_spaces.
Qed.

Lemma get_spaces_selects_witness :
  exists l,
    get_spaces release_2_83 "OUTLINER" (Some "VIEW_LAYER") None
      (studio "2.83.0" true) = (studio "2.83.0" true, inr l) /\
    l = [1%nat].
Proof.
  destruct (get_spaces_selects release_2_83 "OUTLINER" (Some "VIEW_LAYER") None
              (studio "2.83.0" true)) as (l & E & -> & _).
  eexists. split; [exact E|]. vm_compute. reflexivity.
Defined.

(** C7: [get_spaces] leaves the world as it is, does not depend on the
    settings object, and returns equal lists whenever the screens, the
    areas and the type and display mode of the spaces are the same; a
    second call returns what the first returned. *)
Theorem get_spaces_stateless self1 self2 type_name display_mode screen_names
    w1 w2 :
  data_screens (bpy w1) = data_screens (bpy w2) ->
  (forall r,
     space_type (space_at (bpy w1) r) = space_type (space_at (bpy w2) r) /\
     space_display_mode (space_at (bpy w1) r) =
     space_display_mode (space_at (bpy w2) r)) ->
  exists l,
    get_spaces self1 type_name display_mode screen_names w1 = (w1, inr l) /\
    get_spaces self2 type_name display_mode screen_names w2 = (w2, inr l) /\
    (l1 ← get_spaces self1 type_name display_mode screen_names;
     l2 ← get_spaces self1 type_name display_mode screen_names;
     mret (l1, l2)) w1 = (w1, inr (l, l)).
Proof.
  intros Hs Hr. eexists. split; [apply get_spaces_run|]. split.
  - rewrite get_spaces_run. do 3 f_equal.
    unfold exposed_spaces. rewrite Hs. apply list_filter_iff.
    intros [[screen area] r]. unfold selected. simpl.
    destruct (Hr r) as [-> ->]. done.
  - rewrite bind_run, get_spaces_run. cbv beta iota.
    rewrite bind_run, get_spaces_run. reflexivity.
Qed.

Lemma get_spaces_stateless_witness :
  (data_screens (bpy (studio "2.83.0" true)) =
   data_screens (bpy (studio "2.90.0" false)) /\
   forall r,
     space_type (space_at (bpy (studio "2.83.0" true)) r) =
     space_type (space_at (bpy (studio "2.90.0" false)) r) /\
     space_display_mode (space_at (bpy (studio "2.83.0" true)) r) =
     space_display_mode (space_at (bpy (studio "2.90.0" false)) r)) /\
  exists l,
    get_spaces release_2_83 "VIEW_3D" None None (studio "2.83.0" true)
      = (studio "2.83.0" true, inr l) /\
    get_spaces release_2_90 "VIEW_3D" None None (studio "2.90.0" false)
      = (studio "2.90.0" false, inr l).
Proof.
  assert (data_screens (bpy (studio "2.83.0" true)) =
          data_screens (bpy (studio "2.90.0" false))) as H1 by reflexivity.
  assert (forall r,
     space_type (space_at (bpy (studio "2.83.0" true)) r) =
     space_type (space_at (bpy (studio "2.90.0" false)) r) /\
     space_display_mode (space_at (bpy (studio "2.83.0" true)) r) =
     space_display_mode (space_at (bpy (studio "2.90.0" false)) r)) as H2
    by (intros r; split; reflexivity).
  split; [by split|].
  destruct (get_spaces_stateless release_2_83 release_2_90
              "VIEW_3D" None None _ _ H1 H2) as (l & E1 & E2 & _).
  exists l. split; assumption.
Defined.




(** C9: an empty list of screen names is the same as no list: no screen is
    excluded, and every exposed space that passes the other filters is
    returned, whatever its screen. *)
Theorem get_spaces_empty_screen_names self type_name display_mode w :
  get_spaces self type_name display_mode (Some []) w =
  get_spaces self type_name display_mode None w /\
  exists l,
    get_spaces self type_name display_mode (Some []) w = (w, inr l) /\
    forall screen area sp,
      screen ∈ data_screens (bpy w) ->
      area ∈ screen_areas screen ->
      sp ∈ area_spaces area ->
      area_type area = type_name ->
      space_type (space_at (bpy w) sp) = type_name ->
      (truthy_str display_mode = true ->
       Some (space_display_mode (space_at (bpy w) sp)) = display_mode) ->
      sp ∈ l.
Proof.
  split; [reflexivity|]. eexists. split; [apply get_spaces_run|].
  intros screen area sp Hsc Har Hsp Ha Ht Hd.
  apply list_elem_of_fmap. exists (screen, area, sp). split; [done|].
  apply list_elem_of_filter. split.
  - by repeat split.
  - by apply elem_of_exposed_spaces.
Qed.

Lemma get_spaces_empty_screen_names_witness :
  get_spaces release_2_83 "VIEW_3D" None (Some []) (studio "2.83.0" true) =
  get_spaces release_2_83 "VIEW_3D" None None (studio "2.83.0" true).
Proof.
  exact (proj1 (get_spaces_empty_screen_names release_2_83 "VIEW_3D" None
                  (studio "2.83.0" true))).
Defined.

(** ** Clipping *)

(** C6 as stated fails: a 3D viewport space kept in an area that shows
    another editor is exposed by the host and has type [VIEW_3D], and
    [setup_scene_clipping] assigns nothing to it. *)
Lemma hidden_viewport_not_clipped :
  (exposed_spaces (bpy (studio "2.83.0" true))).*2 = [0; 1; 2; 3; 4]%nat /\
  space_type (space_at (bpy (studio "2.83.0" true)) 2%nat) = "VIEW_3D" /\
  space_props
    (space_at (bpy (setup_scene_clipping release_2_83 (studio "2.83.0" true)).1)
              2%nat)
    !! "clip_start" = None /\
  space_props
    (space_at (bpy (setup_scene_clipping release_2_83 (studio "2.83.0" true)).1)
              2%nat)
    !! "clip_end" = None.
Proof. repeat split; vm_compute; reflexivity. Qed.

(** C6, amended: [setup_scene_clipping] assigns [clip_start = 0.001] and
    [clip_end = 1000] to every space of type [VIEW_3D] that lies in an
    area of type [VIEW_3D] and to every camera of the camera collection,
    and assigns nothing else. *)
Theorem setup_scene_clipping_assigns self w :
  exists w',
    setup_scene_clipping self w = (w', inr tt) /\
    trace w' = trace w ++ [Call "setup_scene_clipping"] /\
    (forall r, viewport (bpy w) r ->
               space_at (bpy w') r = clip_space (space_at (bpy w) r)) /\
    (forall r, ~ viewport (bpy w) r ->
               space_at (bpy w') r = space_at (bpy w) r) /\
    (forall r, r ∈ data_cameras (bpy w) ->
               camera_at (bpy w') r = clip_camera (camera_at (bpy w) r)) /\
    (forall r, r ∉ data_cameras (bpy w) ->
               camera_at (bpy w') r = camera_at (bpy w) r) /\
    app_version_string (bpy w') = app_version_string (bpy w) /\
    data_screens (bpy w') = data_screens (bpy w) /\
    data_cameras (bpy w') = data_cameras (bpy w) /\
    context_scene (bpy w') = context_scene (bpy w) /\
    context_view_layer (bpy w') = context_view_layer (bpy w) /\
    context_preferences (bpy w') = context_preferences (bpy w) /\
    keyconfigs_default_preferences (bpy w') =
      keyconfigs_default_preferences (bpy w).
Proof.
  unfold setup_scene_clipping. rewrite bind_run, enter_run.
  cbv beta iota zeta. rewrite bind_run, get_spaces_run. cbv beta iota.
  cbn [bpy]. rewrite lit_0_001, bind_run.
  match goal with |- context [for_each ?l _ ?w0] =>
    destruct (for_each_space_set "clip_start"
                (VFloat (S754_finite false 4611686018427388 (-62)))
                "clip_end" (VInt 1000) l w0)
      as (w1 & E1 & T1 & F1 & S1)
  end.
  rewrite E1. cbv beta iota. rewrite bind_run.
  unfold get_bpy at 1. cbv beta iota.
  destruct (for_each_camera_set "clip_start"
              (VFloat (S754_finite false 4611686018427388 (-62)))
              "clip_end" (VInt 1000) (data_cameras (bpy w1)) w1)
    as (w2 & E2 & T2 & F2 & S2).
  rewrite E2. exists w2.
  destruct F1 as (A1 & A2 & A3 & A4 & A5 & A6 & A7 & A8).
  destruct F2 as (B1 & B2 & B3 & B4 & B5 & B6 & B7 & B8).
  cbn [bpy trace] in *.
  split; [done|]. split; [congruence|].
  split.
  { intros r Hv. rewrite B4, S1. apply elem_of_viewports in Hv.
    by destruct (decide _). }
  split.
  { intros r Hv. rewrite B4, S1. rewrite <- elem_of_viewports in Hv.
    by destruct (decide _). }
  split. { intros r Hr. rewrite S2, A4, A3. by destruct (decide _). }
  split. { intros r Hr. rewrite S2, A4, A3. by destruct (decide _). }
  repeat split; congruence.
Qed.

Lemma setup_scene_clipping_assigns_witness :
  exists w',
    setup_scene_clipping release_2_83 (studio "2.83.0" true) = (w', inr tt) /\
    space_at (bpy w') 0%nat = clip_space view3d /\
    space_at (bpy w') 2%nat = view3d.
Proof.
  destruct (setup_scene_clipping_assigns release_2_83 (studio "2.83.0" true))
    as (w' & E & _ & Hv & Hn & _).
  exists w'. split; [exact E|]. split.
  - apply (Hv 0%nat). rewrite <- elem_of_viewports.
    apply (bool_decide_unpack _). vm_compute. exact I.
  - apply (Hn 2%nat). rewrite <- elem_of_viewports.
    apply (bool_decide_unpack _). vm_compute. exact I.
Defined.

(** ** Tables of assignments *)

Section Tables.

Lemma assign_all_other kvs (p : props) k :
  k ∉ kvs.*1 -> assign_all kvs p !! k = p !! k.
Proof.
  revert p. induction kvs as [|[k0 v0] kvs IH]; intros p Hk; [done|].
  simpl in *. apply not_elem_of_cons in Hk as [Hne Hk].
  unfold assign_all in *. simpl. rewrite IH by done.
  by rewrite lookup_insert_ne.
Qed.

Lemma assign_all_listed kvs (p : props) k v :
  NoDup kvs.*1 -> (k, v) ∈ kvs -> assign_all kvs p !! k = Some v.
Proof.
  revert p. induction kvs as [|[k0 v0] kvs IH]; intros p Hnd Hin.
  - by apply not_elem_of_nil in Hin.
  - simpl in Hnd. apply NoDup_cons in Hnd as [Hk0 Hnd].
    apply elem_of_cons in Hin as [[= -> ->]|Hin].
    + change (assign_all kvs (<[k0:=v0]> p) !! k0 = Some v0).
      rewrite assign_all_other by done. apply lookup_insert_eq.
    + change (assign_all kvs (<[k0:=v0]> p) !! k = Some v). by apply IH.
Qed.

Lemma assign_all_updated kvs (p : props) :
  NoDup kvs.*1 -> updated_by kvs p (assign_all kvs p).
Proof.
  intros Hnd. split.
  - intros k v. by apply assign_all_listed.
  - intros k. apply assign_all_other.
Qed.

Lemma assign_all_app kvs1 kvs2 (p : props) :
  assign_all (kvs1 ++ kvs2) p = assign_all kvs2 (assign_all kvs1 p).
Proof. apply fold_left_app. Qed.

(** Assigning a table twice is assigning it once. *)
Lemma assign_all_twice kvs (p : props) :
  NoDup kvs.*1 -> assign_all kvs (assign_all kvs p) = assign_all kvs p.
Proof.
  intros Hnd. apply map_eq. intros k.
  destruct (decide (k ∈ kvs.*1)) as [Hin|Hout].
  - apply list_elem_of_fmap in Hin as ([k' v] & -> & Hin).
    by rewrite !(assign_all_listed kvs _ k' v).
  - by rewrite !assign_all_other.
Qed.

Lemma preference_settings_keys :
  NoDup (interface_settings ++ input_settings).*1.
Proof. apply (bool_decide_unpack _). vm_compute. exact I. Qed.

Lemma interface_settings_keys : NoDup interface_settings.*1.
Proof. apply (bool_decide_unpack _). vm_compute. exact I. Qed.

End Tables.

(** ** What the setters assign *)

Lemma setup_scene_cycles_effect self w :
  setup_scene_cycles self w =
  ({| bpy :=
        {| app_version_string := app_version_string (bpy w);
           data_screens := data_screens (bpy w);
           data_cameras := data_cameras (bpy w);
           space_at := space_at (bpy w);
           camera_at := camera_at (bpy w);
           context_scene :=
             assign_all cycles_scene_settings (context_scene (bpy w));
           context_view_layer :=
             assign_all cycles_view_layer_settings
               (context_view_layer (bpy w));
           context_preferences := context_preferences (bpy w);
           keyconfigs_default_preferences :=
             keyconfigs_default_preferences (bpy w) |};
      trace := trace w ++ [Call "setup_scene_cycles"] |}, inr tt).
Proof. reflexivity. Qed.

Section Preferences.
Variable self : BlenderCustomSettings.

Ltac run_setup_preferences :=
  unfold setup_preferences;
  cbv beta iota zeta delta
    [mbind M_bind enter emit pref_set set_preferences modify_bpy get_bpy
     theme_face_select_set addon_preferences_set keyconfig_preferences_set
     raise bpy trace context_preferences pref_themes pref_addons pref_props
     app_version_string data_screens data_cameras space_at camera_at
     context_scene context_view_layer keyconfigs_default_preferences
     with_preferences].

(** Without [themes[0].view_3d.face_select[3]] the routine stops at that
    assignment, with the ten assignments before it made. *)
Lemma setup_preferences_no_theme w :
  ~ themes_ready (bpy w) ->
  setup_preferences self w =
  ({| bpy :=
        with_preferences
          {| pref_props :=
               assign_all interface_settings
                 (pref_props (context_preferences (bpy w)));
             pref_themes := pref_themes (context_preferences (bpy w));
             pref_addons := pref_addons (context_preferences (bpy w)) |}
          (keyconfigs_default_preferences (bpy w)) (bpy w);
      trace := trace w ++ [Call "setup_preferences"] |}, inl IndexError).
Proof.
  destruct w as [[vs scr cams sp cam sc vl [pp ths ad] kc] tr].
  unfold themes_ready.
  cbn [bpy trace context_preferences pref_themes pref_addons pref_props
       keyconfigs_default_preferences].
  intros Hth. run_setup_preferences.
  destruct (ths !! 0%nat) as [th|]; [|reflexivity].
  destruct (decide (3 < length (view_3d_face_select th))%nat) as [Hlen|Hlen];
    [|reflexivity].
  exfalso. apply Hth. by exists th.
Qed.

(** With the theme colour but without the Cycles add-on the routine stops
    at its last assignment, with all the others made. *)
Lemma setup_preferences_no_addon w th :
  pref_themes (context_preferences (bpy w)) !! 0%nat = Some th ->
  (3 < length (view_3d_face_select th))%nat ->
  pref_addons (context_preferences (bpy w)) !! "cycles" = None ->
  setup_preferences self w =
  ({| bpy :=
        with_preferences
          {| pref_props :=
               assign_all (interface_settings ++ input_settings)
                 (pref_props (context_preferences (bpy w)));
             pref_themes :=
               <[0%nat := {| view_3d_face_select :=
                    <[3%nat := VFloat (PyFloat.lit "0.4")]>
                      (view_3d_face_select th) |}]>
                 (pref_themes (context_preferences (bpy w)));
             pref_addons := pref_addons (context_preferences (bpy w)) |}
          (<["spacebar_action" := VStr "SEARCH"]>
             (keyconfigs_default_preferences (bpy w))) (bpy w);
      trace := trace w ++ [Call "setup_preferences"] |}, inl KeyError).
Proof.
  destruct w as [[vs scr cams sp cam sc vl [pp ths ad] kc] tr].
  cbn [bpy trace context_preferences pref_themes pref_addons pref_props
       keyconfigs_default_preferences].
  intros Hth Hlen Had. run_setup_preferences.
  rewrite Hth.
  destruct (decide (3 < length (view_3d_face_select th))%nat); [|done].
  cbv beta iota. rewrite Had. reflexivity.
Qed.

Lemma setup_preferences_all w th a :
  pref_themes (context_preferences (bpy w)) !! 0%nat = Some th ->
  (3 < length (view_3d_face_select th))%nat ->
  pref_addons (context_preferences (bpy w)) !! "cycles" = Some a ->
  setup_preferences self w =
  ({| bpy :=
        with_preferences
          {| pref_props :=
               assign_all (interface_settings ++ input_settings)
                 (pref_props (context_preferences (bpy w)));
             pref_themes :=
               <[0%nat := {| view_3d_face_select :=
                    <[3%nat := VFloat (PyFloat.lit "0.4")]>
                      (view_3d_face_select th) |}]>
                 (pref_themes (context_preferences (bpy w)));
             pref_addons :=
               <["cycles" := {| addon_preferences :=
                    <["compute_device_type" := VStr "OPTIX"]>
                      (addon_preferences a) |}]>
                 (pref_addons (context_preferences (bpy w))) |}
          (<["spacebar_action" := VStr "SEARCH"]>
             (keyconfigs_default_preferences (bpy w))) (bpy w);
      trace := trace w ++ [Call "setup_preferences"] |}, inr tt).
Proof.
  destruct w as [[vs scr cams sp cam sc vl [pp ths ad] kc] tr].
  cbn [bpy trace context_preferences pref_themes pref_addons pref_props
       keyconfigs_default_preferences].
  intros Hth Hlen Had. run_setup_preferences.
  rewrite Hth.
  destruct (decide (3 < length (view_3d_face_select th))%nat); [|done].
  cbv beta iota. rewrite Had. reflexivity.
Qed.

Lemma alpha_set_insert (ths : list Theme) th v :
  v = VFloat (PyFloat.lit "0.4") ->
  ths !! 0%nat = Some th ->
  (3 < length (view_3d_face_select th))%nat ->
  alpha_set ths
    (<[0%nat := {| view_3d_face_select :=
                     <[3%nat := v]> (view_3d_face_select th) |}]> ths).
Proof.
  intros -> Hth Hlen. split; [apply length_insert|]. split.
  - intros i Hi. by apply list_lookup_insert_ne.
  - eexists th, _. split; [exact Hth|]. split.
    + apply list_lookup_insert_eq. by apply lookup_lt_Some in Hth.
    + cbn [view_3d_face_select]. split; [apply length_insert|]. split.
      * by apply list_lookup_insert_eq.
      * intros j Hj. by apply list_lookup_insert_ne.
Qed.


End Preferences.



(** X6: on a host without [themes[0].view_3d.face_select[3]] (no theme,
    or a colour with fewer than four components), [setup_preferences]
    raises [IndexError] after its first ten assignments: the ten
    interface preferences are set, and nothing else of the host has
    changed. *)
Theorem setup_preferences_index_error self w :
  ~ themes_ready (bpy w) ->
  exists w',
    setup_preferences self w = (w', inl IndexError) /\
    trace w' = trace w ++ [Call "setup_preferences"] /\
    updated_by interface_settings
      (pref_props (context_preferences (bpy w)))
      (pref_props (context_preferences (bpy w'))) /\
    pref_themes (context_preferences (bpy w')) =
      pref_themes (context_preferences (bpy w)) /\
    pref_addons (context_preferences (bpy w')) =
      pref_addons (context_preferences (bpy w)) /\
    keyconfigs_default_preferences (bpy w') =
      keyconfigs_default_preferences (bpy w) /\
    same_but_preferences (bpy w) (bpy w').
Proof.
  intros Hth. eexists. split; [by apply setup_preferences_no_theme|].
  cbn [bpy trace with_preferences context_preferences pref_props pref_themes
       pref_addons keyconfigs_default_preferences].
  split; [done|].
  split; [apply assign_all_updated, interface_settings_keys|].
  by repeat split.
Qed.

Lemma setup_preferences_index_error_witness :
  ~ themes_ready (bpy bare_host) /\
  exists w',
    setup_preferences release_2_83 bare_host = (w', inl IndexError) /\
    pref_props (context_preferences (bpy w')) !! "view.language"
      = Some (VStr "ja_JP") /\
    pref_props (context_preferences (bpy w')) !! "view.gizmo_size" = None.
Proof.
  assert (~ themes_ready (bpy bare_host)) as H
    by (intros (th & Hth & _); discriminate).
  split; [exact H|].
  destruct (setup_preferences_index_error release_2_83 _ H)
    as (w' & E & _ & [Hp Ho] & _).
  exists w'. split; [exact E|]. split.
  - apply Hp. do 6 apply list_elem_of_further. apply list_elem_of_here.
  - rewrite Ho; [reflexivity|].
    apply (bool_decide_unpack _). vm_compute. exact I.
Defined.

(** X7: on a host with the theme colour but without the Cycles add-on,
    [setup_preferences] raises [KeyError] at its last assignment: the
    nineteen preferences, the theme colour and the space bar action are
    set, the add-ons are as they were. *)
Theorem setup_preferences_key_error self w :
  themes_ready (bpy w) ->
  ~ addons_ready (bpy w) ->
  exists w',
    setup_preferences self w = (w', inl KeyError) /\
    trace w' = trace w ++ [Call "setup_preferences"] /\
    updated_by (interface_settings ++ input_settings)
      (pref_props (context_preferences (bpy w)))
      (pref_props (context_preferences (bpy w'))) /\
    alpha_set (pref_themes (context_preferences (bpy w)))
              (pref_themes (context_preferences (bpy w'))) /\
    pref_addons (context_preferences (bpy w')) =
      pref_addons (context_preferences (bpy w)) /\
    updated_by [("spacebar_action", VStr "SEARCH")]
      (keyconfigs_default_preferences (bpy w))
      (keyconfigs_default_preferences (bpy w')) /\
    same_but_preferences (bpy w) (bpy w').
Proof.
  intros (th & Hth & Hlen) Ha.
  assert (pref_addons (context_preferences (bpy w)) !! "cycles" = None)
    as Hnone.
  { destruct (_ !! "cycles") eqn:E; [|done]. exfalso. apply Ha.
    unfold addons_ready. by rewrite E. }
  eexists. split; [by apply (setup_preferences_no_addon self w th)|].
  cbn [bpy trace with_preferences context_preferences pref_props pref_themes
       pref_addons keyconfigs_default_preferences].
  split; [done|].
  split; [apply assign_all_updated, preference_settings_keys|].
  split; [by apply alpha_set_insert|].
  split; [done|].
  split.
  - apply (assign_all_updated [("spacebar_action", VStr "SEARCH")]).
    apply (bool_decide_unpack _). vm_compute. exact I.
  - by repeat split.
Qed.

Lemma setup_preferences_key_error_witness :
  (themes_ready (bpy (studio "2.83.0" false)) /\
   ~ addons_ready (bpy (studio "2.83.0" false))) /\
  exists w',
    setup_preferences release_2_83 (studio "2.83.0" false)
      = (w', inl KeyError) /\
    keyconfigs_default_preferences (bpy w') !! "spacebar_action"
      = Some (VStr "SEARCH").
Proof.
  assert (themes_ready (bpy (studio "2.83.0" false))) as H1.
  { exists {| view_3d_face_select := rgba |}. split; [reflexivity|].
    vm_compute. lia. }
  assert (~ addons_ready (bpy (studio "2.83.0" false))) as H2
    by (intros [a Ha]; discriminate).
  split; [by split|].
  destruct (setup_preferences_key_error release_2_83 _ H1 H2)
    as (w' & E & _ & _ & _ & _ & [Hk _] & _).
  exists w'. split; [exact E|]. apply Hk. apply list_elem_of_here.
Defined.

(** ** Setters that loop over spaces *)

Section SpaceSetters.

Lemma same_but_spaces_refl b : same_but_spaces b b.
Proof. by repeat split. Qed.

Lemma same_but_spaces_trans b1 b2 b3 :
  same_but_spaces b1 b2 -> same_but_spaces b2 b3 -> same_but_spaces b1 b3.
Proof.
  intros (A1 & A2 & A3 & A4 & A5 & A6 & A7 & A8)
         (B1 & B2 & B3 & B4 & B5 & B6 & B7 & B8).
  repeat split; congruence.
Qed.

Lemma assigns_space_one k v :
  assigns_space (fun r => space_set r k v) (set_space_props k v).
Proof.
  intros r w. eexists. split; [reflexivity|]. split; [done|].
  split; [by repeat split|]. done.
Qed.

Lemma assigns_space_seq (b1 b2 : ref -> M unit) G1 G2 :
  assigns_space b1 G1 -> assigns_space b2 G2 ->
  assigns_space (fun r => b1 r;; b2 r) (fun s => G2 (G1 s)).
Proof.
  intros H1 H2 r w.
  destruct (H1 r w) as (w1 & E1 & T1 & F1 & S1).
  destruct (H2 r w1) as (w2 & E2 & T2 & F2 & S2).
  exists w2. rewrite bind_run, E1, E2.
  split; [done|]. split; [congruence|].
  split; [by eapply same_but_spaces_trans|].
  intros r'. rewrite S2, S1. by destruct (decide (r' = r)).
Qed.

Lemma assigns_space_ext (body : ref -> M unit) G G' :
  assigns_space body G -> (forall s, G s = G' s) -> assigns_space body G'.
Proof.
  intros H HG r w. destruct (H r w) as (w' & E & T & F & S).
  exists w'. repeat split; try done; try apply F.
  intros r'. rewrite S, HG. done.
Qed.

Lemma assign_space_twice kvs sp :
  NoDup kvs.*1 -> assign_space kvs (assign_space kvs sp) = assign_space kvs sp.
Proof.
  intros Hnd. unfold assign_space. cbn [space_type space_display_mode
    space_props]. by rewrite assign_all_twice.
Qed.

Lemma assign_space_updated kvs sp :
  NoDup kvs.*1 -> space_updated_by kvs sp (assign_space kvs sp).
Proof.
  intros Hnd. split; [done|]. split; [done|]. by apply assign_all_updated.
Qed.

Lemma for_each_assigns (body : ref -> M unit) G l w :
  assigns_space body G ->
  (forall s, G (G s) = G s) ->
  exists w',
    for_each l body w = (w', inr tt) /\
    trace w' = trace w /\
    same_but_spaces (bpy w) (bpy w') /\
    forall r, space_at (bpy w') r =
              if decide (r ∈ l) then G (space_at (bpy w) r)
              else space_at (bpy w) r.
Proof.
  intros Hb HG. revert w. induction l as [|x l IH]; intros w.
  - exists w. split; [done|]. split; [done|].
    split; [apply same_but_spaces_refl|].
    intros r. destruct (decide (r ∈ [])) as [Hr|]; [|done].
    by apply not_elem_of_nil in Hr.
  - cbn [for_each]. rewrite bind_run.
    destruct (Hb x w) as (w1 & -> & T1 & F1 & S1).
    destruct (IH w1) as (w' & -> & T & F & S).
    exists w'. split; [done|]. split; [congruence|].
    split; [by eapply same_but_spaces_trans|].
    intros r. rewrite S, S1.
    destruct (decide (r ∈ l)) as [Hl|Hl];
      destruct (decide (r = x)) as [->|Hx];
      destruct (decide (_ ∈ x :: l)) as [Hxl|Hxl]; try done.
    + exfalso. apply Hxl. by left.
    + exfalso. apply Hxl. by right.
    + exfalso. apply Hxl. by left.
    + apply elem_of_cons in Hxl as [?|?]; done.
Qed.

Lemma elem_of_targets b type_name display_mode screen_names r :
  r ∈ (filter (selected b type_name display_mode screen_names)
              (exposed_spaces b)).*2 <->
  target b type_name display_mode screen_names r.
Proof.
  rewrite list_elem_of_fmap. unfold target. split.
  - intros ([[screen area] sp] & -> & Hin).
    apply list_elem_of_filter in Hin as [Hsel Hin].
    apply elem_of_exposed_spaces in Hin as (? & ? & ?).
    by exists screen, area.
  - intros (screen & area & Hsc & Har & Hr & Hsel).
    exists (screen, area, r). split; [done|].
    apply list_elem_of_filter. split; [done|].
    by apply elem_of_exposed_spaces.
Qed.

(** A routine that logs its entry, looks spaces up and assigns a table to
    each of them. *)
Lemma space_setter_run name self type_name display_mode screen_names
    (body : ref -> M unit) kvs w :
  assigns_space body (assign_space kvs) ->
  NoDup kvs.*1 ->
  exists w',
    (enter name;;
     spaces ← get_spaces self type_name display_mode screen_names;
     for_each spaces body) w = (w', inr tt) /\
    trace w' = trace w ++ [Call name] /\
    (forall r, target (bpy w) type_name display_mode screen_names r ->
               space_updated_by kvs (space_at (bpy w) r)
                                    (space_at (bpy w') r)) /\
    (forall r, ~ target (bpy w) type_name display_mode screen_names r ->
               space_at (bpy w') r = space_at (bpy w) r) /\
    same_but_spaces (bpy w) (bpy w').
Proof.
  intros Hb Hnd. rewrite bind_run, enter_run. cbv beta iota.
  rewrite bind_run, get_spaces_run. cbv beta iota. cbn [bpy].
  match goal with |- context [for_each ?l _ ?w0] =>
    destruct (for_each_assigns body (assign_space kvs) l w0 Hb)
      as (w' & -> & T & F & S)
  end.
  { intros s. by apply assign_space_twice. }
  exists w'. cbn [bpy trace] in *. split; [done|]. split; [done|].
  split.
  { intros r Hr. rewrite S. apply elem_of_targets in Hr.
    destruct (decide _); [|done]. by apply assign_space_updated. }
  split; [|done].
  intros r Hr. rewrite S. rewrite <- elem_of_targets in Hr.
  by destruct (decide _).
Qed.

Lemma shading_settings_keys : NoDup shading_settings.*1.
Proof. apply (bool_decide_unpack _). vm_compute. exact I. Qed.

Lemma outliner_settings_keys : NoDup outliner_settings.*1.
Proof. apply (bool_decide_unpack _). vm_compute. exact I. Qed.

Lemma scripting_settings_keys : NoDup scripting_settings.*1.
Proof. apply (bool_decide_unpack _). vm_compute. exact I. Qed.

End SpaceSetters.

(** Splits a loop body into its assignments. *)
Ltac assignments :=
  eapply assigns_space_ext;
  [ repeat match goal with
           | |- assigns_space (fun _ => _ ≫= _) _ => apply assigns_space_seq
           | |- assigns_space (fun _ => space_set _ _ _) _ =>
               apply assigns_space_one
           end
  | intros ?; reflexivity ].

(** X2: [setup_scene_shading] never raises.  It assigns its nine shading
    properties to every space of type VIEW_3D in an area of type VIEW_3D
    of a screen named Layout, Modeling, Sculpting, UV Editing, Animation
    or Scripting; every other space (so every 3D viewport reachable only
    from other screens, such as Shading or Texture Paint) and the rest of
    the host is untouched. *)
Theorem setup_scene_shading_assigns self w :
  exists w',
    setup_scene_shading self w = (w', inr tt) /\
    trace w' = trace w ++ [Call "setup_scene_shading"] /\
    (forall r, target (bpy w) "VIEW_3D" None (Some shading_screens) r ->
               space_updated_by shading_settings
                 (space_at (bpy w) r) (space_at (bpy w') r)) /\
    (forall r, ~ target (bpy w) "VIEW_3D" None (Some shading_screens) r ->
               space_at (bpy w') r = space_at (bpy w) r) /\
    same_but_spaces (bpy w) (bpy w').
Proof.
  unfold setup_scene_shading. cbv zeta.
  apply (space_setter_run "setup_scene_shading" self "VIEW_3D" None
           (Some shading_screens) _ shading_settings).
  - assignments.
  - apply shading_settings_keys.
Qed.

Lemma setup_scene_shading_assigns_witness :
  exists w',
    setup_scene_shading release_2_83 (studio "2.83.0" true) = (w', inr tt) /\
    space_props (space_at (bpy w') 0%nat) !! "shading.color_type"
      = Some (VStr "RANDOM") /\
    space_at (bpy w') 4%nat = view3d.
Proof.
  destruct (setup_scene_shading_assigns release_2_83 (studio "2.83.0" true))
    as (w' & E & _ & Hin & Hout & _).
  exists w'. split; [exact E|]. split.
  - apply (Hin 0%nat).
    + rewrite <- elem_of_targets.
      apply (bool_decide_unpack _). vm_compute. exact I.
    + do 2 apply list_elem_of_further. apply list_elem_of_here.
  - apply (Hout 4%nat). rewrite <- elem_of_targets.
    apply (bool_decide_unpack _). vm_compute. exact I.
Defined.

(** X3: [setup_scene_outliner] never raises.  It sets
    [show_restrict_column_select] and [show_restrict_column_render] on
    every space of type OUTLINER in an area of type OUTLINER whose display
    mode is VIEW_LAYER, on any screen; outliners in another display mode,
    every other space and the rest of the host are untouched. *)
Theorem setup_scene_outliner_assigns self w :
  exists w',
    setup_scene_outliner self w = (w', inr tt) /\
    trace w' = trace w ++ [Call "setup_scene_outliner"] /\
    (forall r, target (bpy w) "OUTLINER" (Some "VIEW_LAYER") None r ->
               space_updated_by outliner_settings
                 (space_at (bpy w) r) (space_at (bpy w') r)) /\
    (forall r, ~ target (bpy w) "OUTLINER" (Some "VIEW_LAYER") None r ->
               space_at (bpy w') r = space_at (bpy w) r) /\
    same_but_spaces (bpy w) (bpy w').
Proof.
  unfold setup_scene_outliner.
  apply (space_setter_run "setup_scene_outliner" self "OUTLINER"
           (Some "VIEW_LAYER") None _ outliner_settings).
  - assignments.
  - apply outliner_settings_keys.
Qed.

Lemma setup_scene_outliner_assigns_witness :
  exists w',
    setup_scene_outliner release_2_83 (studio "2.83.0" true) = (w', inr tt) /\
    space_props (space_at (bpy w') 1%nat) !! "show_restrict_column_render"
      = Some (VBool true) /\
    space_at (bpy w') 5%nat = outliner "LIBRARIES".
Proof.
  destruct (setup_scene_outliner_assigns release_2_83 (studio "2.83.0" true))
    as (w' & E & _ & Hin & Hout & _).
  exists w'. split; [exact E|]. split.
  - apply (Hin 1%nat).
    + rewrite <- elem_of_targets.
      apply (bool_decide_unpack _). vm_compute. exact I.
    + apply list_elem_of_further, list_elem_of_here.
  - apply (Hout 5%nat). rewrite <- elem_of_targets.
    apply (bool_decide_unpack _). vm_compute. exact I.
Defined.

(** X4: [setup_scene_scripting] never raises.  It sets [font_size] to 16
    on every space of type CONSOLE in an area of type CONSOLE, on any
    screen; every other space and the rest of the host are untouched. *)
Theorem setup_scene_scripting_assigns self w :
  exists w',
    setup_scene_scripting self w = (w', inr tt) /\
    trace w' = trace w ++ [Call "setup_scene_scripting"] /\
    (forall r, target (bpy w) "CONSOLE" None None r ->
               space_updated_by scripting_settings
                 (space_at (bpy w) r) (space_at (bpy w') r)) /\
    (forall r, ~ target (bpy w) "CONSOLE" None None r ->
               space_at (bpy w') r = space_at (bpy w) r) /\
    same_but_spaces (bpy w) (bpy w').
Proof.
  unfold setup_scene_scripting.
  apply (space_setter_run "setup_scene_scripting" self "CONSOLE"
           None None _ scripting_settings).
  - assignments.
  - apply scripting_settings_keys.
Qed.

Lemma setup_scene_scripting_assigns_witness :
  exists w',
    setup_scene_scripting release_2_83 (studio "2.83.0" true)
      = (w', inr tt) /\
    space_props (space_at (bpy w') 3%nat) !! "font_size" = Some (VInt 16) /\
    space_at (bpy w') 0%nat = view3d.
Proof.
  destruct (setup_scene_scripting_assigns release_2_83 (studio "2.83.0" true))
    as (w' & E & _ & Hin & Hout & _).
  exists w'. split; [exact E|]. split.
  - apply (Hin 3%nat).
    + rewrite <- elem_of_targets.
      apply (bool_decide_unpack _). vm_compute. exact I.
    + apply list_elem_of_here.
  - apply (Hout 0%nat). rewrite <- elem_of_targets.
    apply (bool_decide_unpack _). vm_compute. exact I.
Defined.

(** ** What a run never changes *)

Section Layout.

Lemma same_layout_refl b : same_layout b b.
Proof. by repeat split. Qed.

Lemma same_layout_trans b1 b2 b3 :
  same_layout b1 b2 -> same_layout b2 b3 -> same_layout b1 b3.
Proof.
  intros (A1 & A2 & A3 & A4) (B1 & B2 & B3 & B4).
  repeat split; try congruence.
  - destruct (A4 r), (B4 r). congruence.
  - destruct (A4 r), (B4 r). congruence.
Qed.

Lemma keeps_layout_ret {A} (a : A) : keeps_layout (mret a).
Proof. intros w. apply same_layout_refl. Qed.

Lemma keeps_layout_raise {A} e : keeps_layout (@raise A e).
Proof. intros w. apply same_layout_refl. Qed.

Lemma keeps_layout_bind {A B} (m : M A) (f : A -> M B) :
  keeps_layout m -> (forall a, keeps_layout (f a)) -> keeps_layout (m ≫= f).
Proof.
  intros Hm Hf w. rewrite bind_run. specialize (Hm w).
  destruct (m w) as [w1 [e|a]]; [exact Hm|].
  eapply same_layout_trans; [exact Hm|]. apply Hf.
Qed.

Lemma keeps_layout_for_each {A} (l : list A) (body : A -> M unit) :
  (forall x, keeps_layout (body x)) -> keeps_layout (for_each l body).
Proof.
  intros Hb. induction l as [|x l IH]; cbn [for_each].
  - apply keeps_layout_ret.
  - apply keeps_layout_bind; auto.
Qed.

Lemma keeps_layout_get_bpy : keeps_layout get_bpy.
Proof. intros w. apply same_layout_refl. Qed.

Lemma keeps_layout_emit e : keeps_layout (emit e).
Proof. intros w. apply same_layout_refl. Qed.

Lemma keeps_layout_init : keeps_layout __init__.
Proof. intros w. rewrite init_run. apply same_layout_refl. Qed.

Lemma keeps_layout_get_spaces self t dm sn :
  keeps_layout (get_spaces self t dm sn).
Proof. intros w. rewrite get_spaces_run. apply same_layout_refl. Qed.

Lemma keeps_layout_scene_set k v : keeps_layout (scene_set k v).
Proof. intros w. by repeat split. Qed.

Lemma keeps_layout_view_layer_set k v : keeps_layout (view_layer_set k v).
Proof. intros w. by repeat split. Qed.

Lemma keeps_layout_camera_set r k v : keeps_layout (camera_set r k v).
Proof. intros w. by repeat split. Qed.

Lemma keeps_layout_keyconfig_preferences_set k v :
  keeps_layout (keyconfig_preferences_set k v).
Proof. intros w. by repeat split. Qed.

Lemma keeps_layout_space_set r k v : keeps_layout (space_set r k v).
Proof.
  intros w. split; [done|]. split; [done|]. split; [done|].
  intros r'. cbn [fst space_set modify_bpy bpy space_at]. unfold update_at.
  by destruct (decide (r' = r)).
Qed.

Lemma keeps_layout_set_preferences p : keeps_layout (set_preferences p).
Proof. intros w. by repeat split. Qed.

Lemma keeps_layout_pref_set k v : keeps_layout (pref_set k v).
Proof.
  apply keeps_layout_bind; [apply keeps_layout_get_bpy|].
  intros b. apply keeps_layout_set_preferences.
Qed.

Lemma keeps_layout_theme_face_select_set i j v :
  keeps_layout (theme_face_select_set i j v).
Proof.
  apply keeps_layout_bind; [apply keeps_layout_get_bpy|].
  intros b. cbv zeta. destruct (_ !! i); [|apply keeps_layout_raise].
  destruct (decide _);
    [apply keeps_layout_set_preferences | apply keeps_layout_raise].
Qed.

Lemma keeps_layout_addon_preferences_set name k v :
  keeps_layout (addon_preferences_set name k v).
Proof.
  apply keeps_layout_bind; [apply keeps_layout_get_bpy|].
  intros b. cbv zeta.
  destruct (_ !! name);
    [apply keeps_layout_set_preferences | apply keeps_layout_raise].
Qed.

(** Lookups depend on the layout only. *)
Lemma selected_same_layout b b' type_name display_mode screen_names :
  same_layout b b' ->
  (filter (selected b' type_name display_mode screen_names)
          (exposed_spaces b')).*2 =
  (filter (selected b type_name display_mode screen_names)
          (exposed_spaces b)).*2.
Proof.
  intros (_ & Hs & _ & Hr). f_equal.
  unfold exposed_spaces. rewrite Hs. apply list_filter_iff.
  intros [[screen area] r]. unfold selected. cbn [fst snd].
  destruct (Hr r) as [-> ->]. done.
Qed.

End Layout.

(** Splits a computation into its statements and shows that each keeps
    the layout. *)
Ltac layout :=
  repeat match goal with
         | |- keeps_layout (_ ≫= _) => apply keeps_layout_bind; [|intros ?]
         | |- keeps_layout (for_each _ _) =>
             apply keeps_layout_for_each; intros ?
         | |- keeps_layout (mret _) => apply keeps_layout_ret
         | |- keeps_layout get_bpy => apply keeps_layout_get_bpy
         | |- keeps_layout __init__ => apply keeps_layout_init
         | |- keeps_layout (enter _) => apply keeps_layout_emit
         | |- keeps_layout (print _) => apply keeps_layout_emit
         | |- keeps_layout (get_spaces _ _ _ _) =>
             apply keeps_layout_get_spaces
         | |- keeps_layout (scene_set _ _) => apply keeps_layout_scene_set
         | |- keeps_layout (view_layer_set _ _) =>
             apply keeps_layout_view_layer_set
         | |- keeps_layout (space_set _ _ _) => apply keeps_layout_space_set
         | |- keeps_layout (camera_set _ _ _) => apply keeps_layout_camera_set
         | |- keeps_layout (pref_set _ _) => apply keeps_layout_pref_set
         | |- keeps_layout (keyconfig_preferences_set _ _) =>
             apply keeps_layout_keyconfig_preferences_set
         | |- keeps_layout (theme_face_select_set _ _ _) =>
             apply keeps_layout_theme_face_select_set
         | |- keeps_layout (addon_preferences_set _ _ _) =>
             apply keeps_layout_addon_preferences_set
         end.

Lemma keeps_layout_main : keeps_layout main.
Proof.
  unfold main. apply keeps_layout_bind; [apply keeps_layout_init|].
  intros bcs. destruct (check_version bcs).
  - unfold setup_scene_cycles, setup_scene_shading, setup_scene_outliner,
      setup_scene_clipping, setup_scene_scripting, setup_preferences.
    cbv beta iota zeta. layout.
  - layout.
Qed.

(** X9: whatever the host and however the run ends (normally or with an
    exception), the entry point leaves the version string, the screens
    with their areas and space references, the camera collection, and the
    type and display mode of every space as they were. *)
Theorem main_keeps_layout w :
  app_version_string (bpy (main w).1) = app_version_string (bpy w) /\
  data_screens (bpy (main w).1) = data_screens (bpy w) /\
  data_cameras (bpy (main w).1) = data_cameras (bpy w) /\
  forall r,
    space_type (space_at (bpy (main w).1) r) = space_type (space_at (bpy w) r)
    /\
    space_display_mode (space_at (bpy (main w).1) r) =
    space_display_mode (space_at (bpy w) r).
Proof. apply keeps_layout_main. Qed.

(** X10: a lookup after a run of the entry point returns what the same
    lookup returned before it. *)
Theorem get_spaces_after_main self type_name display_mode screen_names w :
  (get_spaces self type_name display_mode screen_names (main w).1).2 =
  (get_spaces self type_name display_mode screen_names w).2.
Proof.
  rewrite !get_spaces_run. cbn [snd]. f_equal.
  apply selected_same_layout, keeps_layout_main.
Qed.

(** ** How a run can end *)

Section Outcomes.

Lemma themes_ready_registry b b' :
  registry b' = registry b -> themes_ready b' <-> themes_ready b.
Proof. unfold registry, themes_ready. by intros [= -> _]. Qed.

(** A run on a supported version reaches [setup_preferences] with the
    five scene routines entered and themes and add-ons as they were. *)
Lemma main_reaches_preferences w bcs :
  (__init__ w).2 = inr bcs ->
  check_version bcs = true ->
  exists w5,
    main w = setup_preferences bcs w5 /\
    trace w5 =
      trace w ++
      [Print "BlenderCustomSettings: Apply custom settings...";
       Call "setup_scene_cycles"; Call "setup_scene_shading";
       Call "setup_scene_outliner"; Call "setup_scene_clipping";
       Call "setup_scene_scripting"] /\
    registry (bpy w5) = registry (bpy w).
Proof.
  intros H Hc. apply init_inv in H as (_ & _ & H).
  unfold main. rewrite bind_run, H, Hc.
  rewrite bind_run, print_run.
  match goal with |- context [{| bpy := bpy w; trace := ?t |}] =>
    set (w0 := {| bpy := bpy w; trace := t |}) end.
  cbv beta iota.
  destruct (setup_scene_cycles_run bcs w0) as (w1 & E1 & T1 & R1).
  destruct (setup_scene_shading_run bcs w1) as (w2 & E2 & T2 & R2).
  destruct (setup_scene_outliner_run bcs w2) as (w3 & E3 & T3 & R3).
  destruct (setup_scene_clipping_quiet bcs w3) as (w4 & E4 & T4 & R4).
  destruct (setup_scene_scripting_run bcs w4) as (w5 & E5 & T5 & R5).
  exists w5.
  rewrite bind_run, E1, bind_run, E2, bind_run, E3, bind_run, E4,
    bind_run, E5.
  split; [reflexivity|]. split.
  - rewrite T5, T4, T3, T2, T1. subst w0. cbn [trace].
    by rewrite <- !app_assoc.
  - rewrite R5, R4, R3, R2, R1. reflexivity.
Qed.

(** The two ways [setup_preferences] raises. *)
Lemma setup_preferences_raises self w e :
  (setup_preferences self w).2 = inl e ->
  (e = IndexError /\ ~ themes_ready (bpy w)) \/
  (e = KeyError /\ themes_ready (bpy w) /\ ~ addons_ready (bpy w)).
Proof.
  intros He.
  destruct (pref_themes (context_preferences (bpy w)) !! 0%nat)
    as [th|] eqn:Eth.
  2:{ assert (~ themes_ready (bpy w)) as Hn.
      { intros (th & Hth & _). congruence. }
      rewrite (setup_preferences_no_theme self w Hn) in He.
      injection He as <-. by left. }
  destruct (decide (3 < length (view_3d_face_select th))%nat) as [Hlen|Hlen].
  2:{ assert (~ themes_ready (bpy w)) as Hn.
      { intros (th' & Hth & ?). rewrite Eth in Hth.
        injection Hth as <-. lia. }
      rewrite (setup_preferences_no_theme self w Hn) in He.
      injection He as <-. by left. }
  destruct (pref_addons (context_preferences (bpy w)) !! "cycles")
    as [a|] eqn:Ead.
  - rewrite (setup_preferences_all self w th a Eth Hlen Ead) in He.
    discriminate.
  - rewrite (setup_preferences_no_addon self w th Eth Hlen Ead) in He.
    injection He as <-. right. split; [done|]. split; [by exists th|].
    intros [a Ha]. unfold addons_ready in *. congruence.
Qed.

End Outcomes.

(** X8: how the entry point raises, host property assignments being taken
    to succeed: the host of this development accepts every assignment, so
    the exceptions considered are those of the script's own conversion and
    subscripts.  The entry point ends with the exception [e] exactly in one
    of three cases.  [ValueError]: the first four characters of the version
    string are not a number; nothing is printed or changed.  [IndexError]:
    the version is supported and [themes[0].view_3d.face_select[3]] is
    missing.  [KeyError]: the version is supported, that colour component
    is there and the Cycles add-on is missing.  In the last two cases all
    six routines were entered, so the exception comes from
    [setup_preferences] with the scene routines done. *)
Theorem main_exceptions w e :
  (main w).2 = inl e <->
  (e = ValueError /\
   PyFloat.of_string (substring 0 4 (app_version_string (bpy w))) = None /\
   (main w).1 = w) \/
  (version_guard w = inr true /\
   invoked (trace (main w).1) = invoked (trace w) ++ all_setters /\
   ((e = IndexError /\ ~ themes_ready (bpy w)) \/
    (e = KeyError /\ themes_ready (bpy w) /\ ~ addons_ready (bpy w)))).
Proof.
  split.
  - intros He.
    destruct (PyFloat.of_string (version_prefix (bpy w))) as [v|] eqn:Ev.
    + right.
      assert ((__init__ w).2 =
              inr {| ver := v; supports := [PyFloat.lit "2.83"] |}) as Hi
        by (by rewrite init_run, Ev).
      destruct (check_version
                  {| ver := v; supports := [PyFloat.lit "2.83"] |}) eqn:Hc.
      * destruct (main_reaches_preferences w _ Hi Hc) as (w5 & E & T & R).
        rewrite E in He |- *.
        split; [by unfold version_guard; rewrite init_run, Ev, Hc|].
        destruct (setup_preferences_run
                    {| ver := v; supports := [PyFloat.lit "2.83"] |} w5)
          as (w6 & r & E6 & T6 & _).
        split.
        -- rewrite E6. cbn [fst]. rewrite T6, T, <- app_assoc, invoked_app.
           reflexivity.
        -- apply setup_preferences_raises in He.
           by rewrite (themes_ready_registry _ _ R),
                      (addons_ready_registry _ _ R) in He.
      * exfalso. apply init_inv in Hi as (_ & _ & Hi).
        unfold main in He. rewrite bind_run, Hi, Hc in He. discriminate.
    + left. unfold main in *. rewrite bind_run, init_run, Ev in *.
      cbn [fst snd] in *. injection He as <-. by repeat split.
  - intros [(-> & Ev & _)|(Hg & _ & Hcase)].
    + change (PyFloat.of_string (version_prefix (bpy w)) = None) in Ev.
      unfold main. by rewrite bind_run, init_run, Ev.
    + unfold version_guard in Hg.
      destruct (__init__ w) as [w0 [e0|bcs]] eqn:Hi; [discriminate|].
      injection Hg as Hc.
      assert ((__init__ w).2 = inr bcs) as Hi' by (by rewrite Hi).
      destruct (main_reaches_preferences w bcs Hi' Hc) as (w5 & E & _ & R).
      rewrite E.
      destruct Hcase as [(-> & Hth)|(-> & Hth & Had)].
      * rewrite setup_preferences_no_theme; [done|].
        by rewrite (themes_ready_registry _ _ R).
      * apply (themes_ready_registry _ _ R) in Hth as (th & Hth & Hlen).
        rewrite <- (addons_ready_registry _ _ R) in Had.
        rewrite (setup_preferences_no_addon bcs w5 th Hth Hlen); [done|].
        unfold addons_ready in Had.
        destruct (pref_addons (context_preferences (bpy w5)) !! "cycles")
          eqn:Ead; [|done].
        exfalso. apply Had. by eexists.
Qed.

Lemma main_exceptions_witness :
  (main (studio "2.83.0" false)).2 = inl KeyError /\
  invoked (trace (main (studio "2.83.0" false)).1) = all_setters.
Proof.
  assert ((main (studio "2.83.0" false)).2 = inl KeyError) as H
    by (vm_compute; reflexivity).
  split; [exact H|].
  destruct (proj1 (main_exceptions _ _) H) as [(? & _)|(_ & Hi & _)];
    [discriminate | exact Hi].
Defined.

(** ** Narrowing a lookup *)

Lemma filter_sublist_weaken {A} (P Q : A -> Prop)
    `{!forall x, Decision (P x)} `{!forall x, Decision (Q x)} (l : list A) :
  (forall x, P x -> Q x) -> filter P l `sublist_of` filter Q l.
Proof.
  intros HPQ.
  replace (filter P l) with (filter P (filter Q l)).
  - apply sublist_filter.
  - rewrite list_filter_filter. apply list_filter_iff. intros x.
    split; [tauto|]. intros HP. split; [done|]. by apply HPQ.
Qed.

(** X11: giving [get_spaces] a display mode or screen names only narrows
    its result: the list returned with both filters is a sublist, in the
    same order, of the list returned with either one, and each of those
    is a sublist of the list returned with the type name alone. *)
Theorem get_spaces_filters_narrow self type_name display_mode screen_names w :
  exists l l_mode l_names l_type,
    get_spaces self type_name display_mode screen_names w = (w, inr l) /\
    get_spaces self type_name display_mode None w = (w, inr l_mode) /\
    get_spaces self type_name None screen_names w = (w, inr l_names) /\
    get_spaces self type_name None None w = (w, inr l_type) /\
    l `sublist_of` l_mode /\ l `sublist_of` l_names /\
    l_mode `sublist_of` l_type /\ l_names `sublist_of` l_type.
Proof.
  eexists _, _, _, _. rewrite !get_spaces_run.
  do 4 (split; [reflexivity|]).
  repeat split; apply fmap_sublist, filter_sublist_weaken;
    intros x (Ha & Ht & Hd & Hn); repeat split; try done;
    cbn [truthy_str truthy_list]; discriminate.
Qed.

(** ** Version strings with a one-character minor version *)

Lemma in_all_ascii c : c ∈ all_ascii.
Proof.
  unfold all_ascii. rewrite <- (ascii_nat_embedding c).
  apply list_elem_of_fmap_2, list_elem_of_In, in_seq.
  pose proof (nat_ascii_bounded c). lia.
Qed.

Lemma forallb_all_ascii (f : ascii -> bool) :
  forallb f all_ascii = true -> forall c, f c = true.
Proof.
  intros H c. rewrite forallb_forall in H. apply H.
  apply list_elem_of_In, in_all_ascii.
Qed.

Lemma two_dots_rejected_all :
  forallb (fun a => forallb (two_dots_rejected a) all_ascii) all_ascii = true.
Proof. vm_compute. reflexivity. Qed.

Lemma two_dots a b :
  PyFloat.of_string (String a (String "." (String b (String "." "")))) = None.
Proof.
  pose proof (forallb_all_ascii (two_dots_rejected a)
                (forallb_all_ascii
                   (fun a => forallb (two_dots_rejected a) all_ascii)
                   two_dots_rejected_all a) b) as H.
  unfold two_dots_rejected in H. by destruct (PyFloat.of_string _).
Qed.

(** X12: on every version string whose second and fourth characters are
    dots (a one-character major and a one-character minor version, as in
    3.0.0 or 4.2.1), the constructor raises [ValueError]: the entry point
    ends with that exception, prints nothing and changes nothing. *)
Theorem one_character_minor_raises w a b rest :
  app_version_string (bpy w) =
    String a (String "." (String b (String "." rest))) ->
  main w = (w, inl ValueError).
Proof.
  intros H. unfold main. rewrite bind_run, init_run.
  unfold version_prefix. rewrite H.
  change (substring 0 4 (String a (String "." (String b (String "." rest)))))
    with (String a (String "." (String b (String "." (substring 0 0 rest))))).
  replace (substring 0 0 rest) with "" by (by destruct rest).
  by rewrite two_dots.
Qed.

Lemma one_character_minor_raises_witness :
  app_version_string (bpy (studio "4.2.1" true)) =
    String "4" (String "." (String "2" (String "." "1"))) /\
  main (studio "4.2.1" true) = (studio "4.2.1" true, inl ValueError).
Proof.
  split; [reflexivity|].
  by apply (one_character_minor_raises _ "4" "2" "1").
Defined.

(** ** Which version strings are supported *)

Section NumberStrings.

Local Abbreviation ok l := (Forall (fun c => number_char c = true) l).

Lemma number_char_alphabet c : number_char c = true -> c ∈ number_alphabet.
Proof.
  revert c.
  assert (forallb (fun c => implb (number_char c)
                              (bool_decide (c ∈ number_alphabet)))
            all_ascii = true) as H by (vm_compute; reflexivity).
  intros c Hc. pose proof (forallb_all_ascii _ H c) as H'.
  cbv beta in H'. rewrite Hc in H'. cbn [implb] in H'.
  by apply bool_decide_eq_true in H'.
Qed.

Lemma digit_number_char c d : PyFloat.digit_of c = Some d -> number_char c = true.
Proof.
  intros H. unfold number_char, PyFloat.is_digit. by rewrite H.
Qed.

Lemma mark_number_char c :
  existsb (Ascii.eqb c) (list_ascii_of_string ".eE+-_") = true ->
  number_char c = true.
Proof. intros H. unfold number_char. rewrite H. by rewrite orb_true_r. Qed.

Lemma span_digits_spec s ds r :
  PyFloat.span_digits s = (ds, r) -> exists pre, s = pre ++ r /\ ok pre.
Proof.
  revert ds r. induction s as [|c s IH]; intros ds r; cbn [PyFloat.span_digits].
  - intros [= <- <-]. by exists [].
  - destruct (PyFloat.digit_of c) as [d|] eqn:Ed.
    + destruct (PyFloat.span_digits s) as [ds' r'] eqn:Es.
      intros [= <- <-]. destruct (IH _ _ eq_refl) as (pre & -> & Hpre).
      exists (c :: pre). split; [done|]. constructor; [|done].
      by eapply digit_number_char.
    + intros [= <- <-]. by exists [].
Qed.

Lemma take_sign_spec s neg r :
  PyFloat.take_sign s = (neg, r) -> ok r -> ok s.
Proof.
  destruct s as [|c s]; cbn [PyFloat.take_sign]; [by intros [= <- <-]|].
  destruct (Ascii.eqb c "-") eqn:E1.
  { intros [= <- <-] Hr. constructor; [|done]. apply mark_number_char.
    apply Ascii.eqb_eq in E1 as ->. reflexivity. }
  destruct (Ascii.eqb c "+") eqn:E2.
  { intros [= <- <-] Hr. constructor; [|done]. apply mark_number_char.
    apply Ascii.eqb_eq in E2 as ->. reflexivity. }
  by intros [= <- <-].
Qed.

Lemma parse_exponent_spec s e : PyFloat.parse_exponent s = Some e -> ok s.
Proof.
  destruct s as [|c s]; cbn [PyFloat.parse_exponent]; [by constructor|].
  destruct (Ascii.eqb c "e" || Ascii.eqb c "E")%bool eqn:Ec; [|discriminate].
  destruct (PyFloat.take_sign s) as [neg s1] eqn:Es.
  destruct (PyFloat.span_digits s1) as [ds r] eqn:Ed.
  destruct ds as [|d ds]; [discriminate|]. destruct r; [|discriminate].
  intros _. constructor.
  - apply mark_number_char. apply orb_true_iff in Ec as [E|E];
      apply Ascii.eqb_eq in E as ->; reflexivity.
  - eapply take_sign_spec; [exact Es|].
    apply span_digits_spec in Ed as (pre & -> & Hpre). by rewrite app_nil_r.
Qed.

Lemma parse_decimal_spec s me : PyFloat.parse_decimal s = Some me -> ok s.
Proof.
  unfold PyFloat.parse_decimal.
  destruct (PyFloat.span_digits s) as [ip r1] eqn:E1.
  apply span_digits_spec in E1 as (pre1 & -> & Hpre1).
  destruct r1 as [|c t].
  - intros _. by rewrite app_nil_r.
  - destruct (Ascii.eqb c ".") eqn:Ec.
    + destruct (PyFloat.span_digits t) as [fp r2] eqn:E2.
      apply span_digits_spec in E2 as (pre2 & -> & Hpre2).
      destruct (ip ++ fp); [discriminate|].
      destruct (PyFloat.parse_exponent r2) as [e|] eqn:Ee; [|discriminate].
      intros _. apply Forall_app. split; [done|]. constructor.
      * apply mark_number_char. apply Ascii.eqb_eq in Ec as ->. reflexivity.
      * apply Forall_app. split; [done|]. by eapply parse_exponent_spec.
    + destruct (ip ++ []); [discriminate|].
      destruct (PyFloat.parse_exponent (c :: t)) as [e|] eqn:Ee;
        [|discriminate].
      intros _. apply Forall_app. split; [done|].
      by eapply parse_exponent_spec.
Qed.

Lemma drop_underscores_spec prev s body :
  PyFloat.drop_underscores prev s = Some body -> ok body -> ok s.
Proof.
  revert prev body. induction s as [|c s IH]; intros prev body;
    cbn [PyFloat.drop_underscores]; [by constructor|].
  destruct (PyFloat.is_underscore c) eqn:Eu.
  - destruct (PyFloat.is_digit prev); [|discriminate].
    intros H Hb. constructor; [|by eapply IH].
    apply mark_number_char. unfold PyFloat.is_underscore in Eu.
    apply Ascii.eqb_eq in Eu as ->. reflexivity.
  - destruct (PyFloat.is_underscore prev && negb (PyFloat.is_digit c))%bool;
      [discriminate|].
    destruct (PyFloat.drop_underscores c s) as [b|] eqn:Eb; [|discriminate].
    intros [= <-] Hb. apply Forall_cons in Hb as [Hc Hb].
    constructor; [done|]. by eapply IH.
Qed.

(** A stripped string that [float] reads as a finite number is made of
    these characters. *)
Lemma of_stripped_finite_chars l sg m e :
  of_stripped l = Some (S754_finite sg m e) -> ok l.
Proof.
  unfold of_stripped. intros H.
  destruct (PyFloat.drop_underscores "000" l) as [body|] eqn:Eb;
    [|discriminate].
  eapply drop_underscores_spec; [exact Eb|].
  cbn in H.
  destruct (PyFloat.take_sign body) as [neg r] eqn:Es.
  eapply take_sign_spec; [exact Es|].
  destruct (PyFloat.parse_decimal r) as [[m' e']|] eqn:Ed.
  - by eapply parse_decimal_spec.
  - exfalso. unfold PyFloat.parse_special in H. cbv zeta in H.
    destruct (_ || _)%bool in H; [discriminate|].
    destruct (String.eqb _ "nan") in H; discriminate.
Qed.

Lemma only_2_83_checked :
  only_2_83 [] &&
  forallb (fun a =>
    only_2_83 [a] &&
    forallb (fun b =>
      only_2_83 [a; b] &&
      forallb (fun c =>
        only_2_83 [a; b; c] &&
        forallb (fun d => only_2_83 [a; b; c; d]) number_alphabet)
        number_alphabet) number_alphabet) number_alphabet = true.
Proof. vm_compute. reflexivity. Qed.

Lemma forallb_alphabet (f : ascii -> bool) c :
  forallb f number_alphabet = true -> number_char c = true -> f c = true.
Proof.
  intros H Hc. rewrite forallb_forall in H. apply H.
  by apply list_elem_of_In, number_char_alphabet.
Qed.

(** Among the stripped strings of at most four characters, [float] reads
    only [2.83] as the float 2.83. *)
Lemma only_2_83_short l :
  (length l <= 4)%nat -> ok l -> only_2_83 l = true.
Proof.
  pose proof only_2_83_checked as H.
  apply andb_true_iff in H as [H0 H].
  intros Hlen Hok.
  destruct l as [|a l]; [exact H0|]. apply Forall_cons in Hok as [Ha Hok].
  apply (fun H => forallb_alphabet _ a H Ha) in H.
  apply andb_true_iff in H as [H1 H].
  destruct l as [|b l]; [exact H1|]. apply Forall_cons in Hok as [Hb Hok].
  apply (fun H => forallb_alphabet _ b H Hb) in H.
  apply andb_true_iff in H as [H2 H].
  destruct l as [|c l]; [exact H2|]. apply Forall_cons in Hok as [Hc Hok].
  apply (fun H => forallb_alphabet _ c H Hc) in H.
  apply andb_true_iff in H as [H3 H].
  destruct l as [|d l]; [exact H3|]. apply Forall_cons in Hok as [Hd Hok].
  apply (fun H => forallb_alphabet _ d H Hd) in H.
  destruct l; [exact H|]. cbn [length] in Hlen. lia.
Qed.

Lemma drop_spaces_shorter s :
  exists pre, s = pre ++ PyFloat.drop_spaces s.
Proof.
  induction s as [|c s [pre IH]]; cbn [PyFloat.drop_spaces].
  - by exists [].
  - destruct (PyFloat.is_space c).
    + exists (c :: pre). by rewrite <- app_comm_cons, <- IH.
    + by exists [].
Qed.

(** A string is its stripped part between two runs of characters. *)
Lemma strip_inside s :
  exists pre post, s = pre ++ PyFloat.strip s ++ post.
Proof.
  unfold PyFloat.strip.
  destruct (drop_spaces_shorter s) as (pre & Es).
  destruct (drop_spaces_shorter (rev (PyFloat.drop_spaces s))) as (pre' & Er).
  exists pre, (rev pre'). rewrite <- rev_app_distr, <- Er, rev_involutive.
  exact Es.
Qed.

Lemma of_string_stripped s :
  PyFloat.of_string s = of_stripped (PyFloat.strip (list_ascii_of_string s)).
Proof. reflexivity. Qed.

(** Among the strings of at most four characters, [float] reads only
    [2.83] as the float 2.83. *)
Lemma of_string_2_83 s :
  (String.length s <= 4)%nat ->
  PyFloat.of_string s = Some (S754_finite false 6372593472729252 (-51)) ->
  s = "2.83".
Proof.
  intros Hlen H. rewrite of_string_stripped in H.
  set (l := list_ascii_of_string s) in *.
  assert (length l <= 4)%nat as Hl.
  { subst l. clear H. revert Hlen. generalize 4%nat.
    induction s as [|c s IH]; intros n; cbn; [lia|].
    destruct n; [lia|]. intros Hn. specialize (IH n). lia. }
  destruct (strip_inside l) as (pre & post & El).
  assert (length (PyFloat.strip l) <= 4)%nat as Hs.
  { rewrite El in Hl. rewrite !length_app in Hl. lia. }
  pose proof (only_2_83_short _ Hs (of_stripped_finite_chars _ _ _ _ H)) as Ho.
  unfold only_2_83 in Ho. rewrite H in Ho.
  rewrite lit_2_83, eqb_finite_refl in Ho. cbn [implb] in Ho.
  apply String.eqb_eq in Ho.
  assert (PyFloat.strip l = list_ascii_of_string "2.83") as E.
  { rewrite <- Ho. by rewrite list_ascii_of_string_of_list_ascii. }
  rewrite E in El. rewrite El in Hl. rewrite !length_app in Hl.
  cbn [length list_ascii_of_string] in Hl.
  destruct pre; [|cbn [length] in Hl; lia].
  destruct post; [|cbn [length] in Hl; lia].
  rewrite app_nil_l, app_nil_r in El.
  rewrite <- (string_of_list_ascii_of_string s). fold l. by rewrite El.
Qed.

End NumberStrings.

Lemma substring_length n s : (String.length (substring 0 n s) <= n)%nat.
Proof.
  revert s. induction n as [|n IH]; intros [|c s]; cbn; try lia.
  specialize (IH s). lia.
Qed.

(** X13: the version guard answers true exactly when the first four
    characters of the version string are [2.83]: no other string of at
    most four characters is read by [float] as the float 2.83. *)
Theorem supported_iff_prefix_2_83 w :
  version_guard w = inr true <->
  substring 0 4 (app_version_string (bpy w)) = "2.83".
Proof.
  unfold version_guard. rewrite init_run. unfold version_prefix. split.
  - destruct (PyFloat.of_string _) as [v|] eqn:Ev; [|discriminate].
    intros [= Hc]. unfold check_version in Hc. cbn [ver supports] in Hc.
    apply float_in_2_83 in Hc as ->.
    apply of_string_2_83; [apply substring_length | exact Ev].
  - intros ->. vm_compute. reflexivity.
Qed.

(** ** A complete run *)

Section CompleteRun.

Lemma assign_all_union kvs (p : props) :
  assign_all kvs p = assign_all kvs ∅ ∪ p.
Proof.
  revert p. induction kvs as [|[k v] kvs IH]; intros p.
  - cbn. by rewrite (left_id_L ∅ (∪)).
  - change (assign_all kvs (<[k:=v]> p) = assign_all kvs (<[k:=v]> ∅) ∪ p).
    rewrite (IH (<[k:=v]> p)), (IH (<[k:=v]> ∅)).
    rewrite insert_empty, (insert_union_singleton_l p).
    by rewrite (assoc_L (∪)).
Qed.

(** Assigning any table twice is assigning it once. *)
Lemma assign_all_again kvs (p : props) :
  assign_all kvs (assign_all kvs p) = assign_all kvs p.
Proof.
  rewrite (assign_all_union kvs (assign_all kvs p)), (assign_all_union kvs p).
  by rewrite (assoc_L (∪)), (idemp_L (∪)).
Qed.

Lemma assign_space_again kvs sp :
  assign_space kvs (assign_space kvs sp) = assign_space kvs sp.
Proof.
  unfold assign_space. cbn [space_type space_display_mode space_props].
  by rewrite assign_all_again.
Qed.

Lemma assign_space_app kvs1 kvs2 sp :
  assign_space kvs2 (assign_space kvs1 sp) = assign_space (kvs1 ++ kvs2) sp.
Proof.
  unfold assign_space. cbn [space_type space_display_mode space_props].
  by rewrite assign_all_app.
Qed.

Lemma assign_space_if (P : Prop) `{!Decision P} kvs sp :
  (if decide P then assign_space kvs sp else sp) =
  assign_space (if decide P then kvs else []) sp.
Proof. destruct (decide P); [done|]. by destruct sp. Qed.

Lemma assign_camera_if (P : Prop) `{!Decision P} kvs c :
  (if decide P then assign_camera kvs c else c) =
  assign_camera (if decide P then kvs else []) c.
Proof. destruct (decide P); [done|]. by destruct c. Qed.

(** A routine that logs its entry, looks spaces up and assigns a table
    to each of them: the spaces afterwards. *)
Lemma space_setter_exact name self type_name display_mode screen_names
    (body : ref -> M unit) kvs w :
  assigns_space body (assign_space kvs) ->
  exists w',
    (enter name;;
     spaces ← get_spaces self type_name display_mode screen_names;
     for_each spaces body) w = (w', inr tt) /\
    same_but_spaces (bpy w) (bpy w') /\
    forall r,
      space_at (bpy w') r =
      assign_space
        (if decide (r ∈ looked_up (bpy w) type_name display_mode screen_names)
         then kvs else [])
        (space_at (bpy w) r).
Proof.
  intros Hb. rewrite bind_run, enter_run. cbv beta iota.
  rewrite bind_run, get_spaces_run. cbv beta iota. cbn [bpy].
  match goal with |- context [for_each ?l _ ?w0] =>
    destruct (for_each_assigns body (assign_space kvs) l w0 Hb)
      as (w' & -> & T & F & S)
  end.
  { intros s. apply assign_space_again. }
  exists w'. cbn [bpy trace] in *. split; [done|]. split; [done|].
  intros r. rewrite S. apply assign_space_if.
Qed.

Lemma setup_scene_clipping_exact self w :
  exists w',
    setup_scene_clipping self w = (w', inr tt) /\
    app_version_string (bpy w') = app_version_string (bpy w) /\
    data_screens (bpy w') = data_screens (bpy w) /\
    data_cameras (bpy w') = data_cameras (bpy w) /\
    context_scene (bpy w') = context_scene (bpy w) /\
    context_view_layer (bpy w') = context_view_layer (bpy w) /\
    context_preferences (bpy w') = context_preferences (bpy w) /\
    keyconfigs_default_preferences (bpy w') =
      keyconfigs_default_preferences (bpy w) /\
    (forall r,
       space_at (bpy w') r =
       assign_space
         (if decide (r ∈ looked_up (bpy w) "VIEW_3D" None None)
          then clipping_settings else [])
         (space_at (bpy w) r)) /\
    (forall r,
       camera_at (bpy w') r =
       assign_camera (camera_table (bpy w) r) (camera_at (bpy w) r)).
Proof.
  unfold setup_scene_clipping. rewrite bind_run, enter_run.
  cbv beta iota zeta. rewrite bind_run, get_spaces_run. cbv beta iota.
  cbn [bpy]. rewrite bind_run.
  match goal with |- context [for_each ?l _ ?w0] =>
    destruct (for_each_space_set "clip_start" (VFloat (PyFloat.lit "0.001"))
                "clip_end" (VInt 1000) l w0)
      as (w1 & E1 & T1 & F1 & S1)
  end.
  rewrite E1. cbv beta iota. rewrite bind_run.
  unfold get_bpy at 1. cbv beta iota.
  destruct (for_each_camera_set "clip_start" (VFloat (PyFloat.lit "0.001"))
              "clip_end" (VInt 1000) (data_cameras (bpy w1)) w1)
    as (w2 & E2 & T2 & F2 & S2).
  rewrite E2. exists w2.
  destruct F1 as (A1 & A2 & A3 & A4 & A5 & A6 & A7 & A8).
  destruct F2 as (B1 & B2 & B3 & B4 & B5 & B6 & B7 & B8).
  cbn [bpy trace] in *.
  split; [done|]. do 7 (split; [congruence|]). split.
  - intros r. rewrite B4, S1.
    exact (assign_space_if _ clipping_settings (space_at (bpy w) r)).
  - intros r. rewrite S2, A4, A3. unfold camera_table.
    exact (assign_camera_if _ clipping_settings (camera_at (bpy w) r)).
Qed.

Lemma keeps_layout_same_but_spaces b b' :
  same_but_spaces b b' ->
  (forall r, exists kvs, space_at b' r = assign_space kvs (space_at b r)) ->
  same_layout b b'.
Proof.
  intros (A1 & A2 & A3 & _) H. repeat split; try done;
    destruct (H r) as [kvs ->]; done.
Qed.

Lemma looked_up_same_layout b b' type_name display_mode screen_names :
  same_layout b b' ->
  looked_up b' type_name display_mode screen_names =
  looked_up b type_name display_mode screen_names.
Proof. apply selected_same_layout. Qed.

Lemma setup_scene_shading_exact self w :
  exists w',
    setup_scene_shading self w = (w', inr tt) /\
    same_but_spaces (bpy w) (bpy w') /\
    forall r,
      space_at (bpy w') r =
      assign_space
        (if decide (r ∈ looked_up (bpy w) "VIEW_3D" None
                          (Some shading_screens))
         then shading_settings else [])
        (space_at (bpy w) r).
Proof.
  unfold setup_scene_shading. cbv zeta.
  apply (space_setter_exact "setup_scene_shading" self "VIEW_3D" None
           (Some shading_screens) _ shading_settings).
  assignments.
Qed.

Lemma setup_scene_outliner_exact self w :
  exists w',
    setup_scene_outliner self w = (w', inr tt) /\
    same_but_spaces (bpy w) (bpy w') /\
    forall r,
      space_at (bpy w') r =
      assign_space
        (if decide (r ∈ looked_up (bpy w) "OUTLINER" (Some "VIEW_LAYER") None)
         then outliner_settings else [])
        (space_at (bpy w) r).
Proof.
  unfold setup_scene_outliner.
  apply (space_setter_exact "setup_scene_outliner" self "OUTLINER"
           (Some "VIEW_LAYER") None _ outliner_settings).
  assignments.
Qed.

Lemma setup_scene_scripting_exact self w :
  exists w',
    setup_scene_scripting self w = (w', inr tt) /\
    same_but_spaces (bpy w) (bpy w') /\
    forall r,
      space_at (bpy w') r =
      assign_space
        (if decide (r ∈ looked_up (bpy w) "CONSOLE" None None)
         then scripting_settings else [])
        (space_at (bpy w) r).
Proof.
  unfold setup_scene_scripting.
  apply (space_setter_exact "setup_scene_scripting" self "CONSOLE"
           None None _ scripting_settings).
  assignments.
Qed.

(** What a complete run on a supported version assigns, on a host where
    [setup_preferences] finds what it subscripts. *)
Lemma main_effect w bcs th a :
  (__init__ w).2 = inr bcs ->
  check_version bcs = true ->
  pref_themes (context_preferences (bpy w)) !! 0%nat = Some th ->
  (3 < length (view_3d_face_select th))%nat ->
  pref_addons (context_preferences (bpy w)) !! "cycles" = Some a ->
  exists w',
    main w = (w', inr tt) /\
    same_layout (bpy w) (bpy w') /\
    context_scene (bpy w') =
      assign_all cycles_scene_settings (context_scene (bpy w)) /\
    context_view_layer (bpy w') =
      assign_all cycles_view_layer_settings (context_view_layer (bpy w)) /\
    (forall r, space_at (bpy w') r =
               assign_space (space_table (bpy w) r) (space_at (bpy w) r)) /\
    (forall r, camera_at (bpy w') r =
               assign_camera (camera_table (bpy w) r) (camera_at (bpy w) r)) /\
    context_preferences (bpy w') =
      {| pref_props :=
           assign_all (interface_settings ++ input_settings)
             (pref_props (context_preferences (bpy w)));
         pref_themes :=
           <[0%nat := {| view_3d_face_select :=
                <[3%nat := VFloat (PyFloat.lit "0.4")]>
                  (view_3d_face_select th) |}]>
             (pref_themes (context_preferences (bpy w)));
         pref_addons :=
           <["cycles" := {| addon_preferences :=
                <["compute_device_type" := VStr "OPTIX"]>
                  (addon_preferences a) |}]>
             (pref_addons (context_preferences (bpy w))) |} /\
    keyconfigs_default_preferences (bpy w') =
      <["spacebar_action" := VStr "SEARCH"]>
        (keyconfigs_default_preferences (bpy w)).
Proof.
  intros H Hc Hth Hlen Had. apply init_inv in H as (_ & _ & H).
  unfold main. rewrite bind_run, H, Hc.
  rewrite bind_run, print_run. cbv beta iota.
  rewrite bind_run, setup_scene_cycles_effect. cbv beta iota.
  cbn [bpy trace]. rewrite bind_run.
  match goal with |- context [setup_scene_shading bcs ?x] =>
    set (w1 := x) end.
  assert (same_layout (bpy w) (bpy w1)) as L1 by (by repeat split).
  destruct (setup_scene_shading_exact bcs w1) as (w2 & E2 & F2 & S2).
  assert (same_layout (bpy w) (bpy w2)) as L2.
  { eapply same_layout_trans; [exact L1|].
    apply keeps_layout_same_but_spaces; [exact F2|]. by eexists. }
  destruct (setup_scene_outliner_exact bcs w2) as (w3 & E3 & F3 & S3).
  assert (same_layout (bpy w) (bpy w3)) as L3.
  { eapply same_layout_trans; [exact L2|].
    apply keeps_layout_same_but_spaces; [exact F3|]. by eexists. }
  destruct (setup_scene_clipping_exact bcs w3)
    as (w4 & E4 & C1 & C2 & C3 & C4 & C5 & C6 & C7 & S4 & K4).
  assert (same_layout (bpy w) (bpy w4)) as L4.
  { eapply same_layout_trans; [exact L3|].
    repeat split; try done; by rewrite S4. }
  destruct (setup_scene_scripting_exact bcs w4) as (w5 & E5 & F5 & S5).
  assert (same_layout (bpy w) (bpy w5)) as L5.
  { eapply same_layout_trans; [exact L4|].
    apply keeps_layout_same_but_spaces; [exact F5|]. by eexists. }
  destruct F2 as (A1 & A2 & A3 & A4 & A5 & A6 & A7 & A8).
  destruct F3 as (B1 & B2 & B3 & B4 & B5 & B6 & B7 & B8).
  destruct F5 as (D1 & D2 & D3 & D4 & D5 & D6 & D7 & D8).
  assert (context_preferences (bpy w5) = context_preferences (bpy w)) as P5
    by (rewrite D7, C6, B7, A7; reflexivity).
  rewrite E2, bind_run, E3, bind_run, E4, bind_run, E5.
  rewrite (setup_preferences_all bcs w5 th a);
    [| by rewrite P5 | done | by rewrite P5].
  eexists. split; [reflexivity|].
  cbn [bpy with_preferences app_version_string data_screens data_cameras
       space_at camera_at context_scene context_view_layer
       context_preferences keyconfigs_default_preferences].
  split; [exact L5|].
  split; [by rewrite D5, C4, B5, A5|].
  split; [by rewrite D6, C5, B6, A6|].
  split.
  { intros r. rewrite S5, S4, S3, S2.
    rewrite (looked_up_same_layout _ _ _ _ _ L4),
            (looked_up_same_layout _ _ _ _ _ L3),
            (looked_up_same_layout _ _ _ _ _ L2),
            (looked_up_same_layout _ _ _ _ _ L1).
    rewrite !assign_space_app. reflexivity. }
  split.
  { intros r. rewrite D4, K4, B4, A4. unfold camera_table.
    by rewrite B3, A3. }
  split; [by rewrite P5|].
  by rewrite D8, C7, B8, A8.
Qed.

End CompleteRun.


Lemma space_table_same_layout b b' r :
  same_layout b b' -> space_table b' r = space_table b r.
Proof.
  intros L. unfold space_table.
  by rewrite !(looked_up_same_layout _ _ _ _ _ L).
Qed.

Lemma assign_camera_again kvs c :
  assign_camera kvs (assign_camera kvs c) = assign_camera kvs c.
Proof. unfold assign_camera. cbn [camera_props]. by rewrite assign_all_again. Qed.

(** X14: running the entry point again after a run that returned returns
    again and changes no property: the scene, the view layer, the
    preferences with their themes and add-ons, the key configuration and
    every space and camera are after the second run what they were after
    the first. *)
Theorem main_twice w :
  (main w).2 = inr tt ->
  (main (main w).1).2 = inr tt /\
  context_scene (bpy (main (main w).1).1) = context_scene (bpy (main w).1) /\
  context_view_layer (bpy (main (main w).1).1) =
    context_view_layer (bpy (main w).1) /\
  context_preferences (bpy (main (main w).1).1) =
    context_preferences (bpy (main w).1) /\
  keyconfigs_default_preferences (bpy (main (main w).1).1) =
    keyconfigs_default_preferences (bpy (main w).1) /\
  (forall r, space_at (bpy (main (main w).1).1) r =
             space_at (bpy (main w).1) r) /\
  (forall r, camera_at (bpy (main (main w).1).1) r =
             camera_at (bpy (main w).1) r).
Proof.
  intros Hok.
  destruct (PyFloat.of_string (version_prefix (bpy w))) as [v|] eqn:Ev.
  2:{ unfold main in Hok. rewrite bind_run, init_run, Ev in Hok.
      discriminate. }
  set (bcs := {| ver := v; supports := [PyFloat.lit "2.83"] |}).
  assert (forall w', app_version_string (bpy w') = app_version_string (bpy w)
                     -> __init__ w' = (w', inr bcs)) as Hinit.
  { intros w' Hv. rewrite init_run. unfold version_prefix in *.
    by rewrite Hv, Ev. }
  destruct (check_version bcs) eqn:Hc.
  - assert ((__init__ w).2 = inr bcs) as Hi by (by rewrite Hinit).
    destruct (main_reaches_preferences w bcs Hi Hc) as (w5 & E5 & _ & R5).
    destruct (setup_preferences_run bcs w5) as (w6 & r & E6 & _ & Hr).
    rewrite E5, E6 in Hok. cbn [snd] in Hok.
    apply Hr in Hok. apply (preferences_ready_registry _ _ R5) in Hok.
    destruct Hok as [(th & Hth & Hlen) [a Ha]].
    destruct (main_effect w bcs th a Hi Hc Hth Hlen Ha)
      as (w1 & E1 & L1 & Sc1 & Vl1 & Sp1 & Cam1 & P1 & K1).
    rewrite E1. cbn [fst].
    assert ((__init__ w1).2 = inr bcs) as Hi1.
    { rewrite Hinit; [done|]. apply L1. }
    assert (0 < length (pref_themes (context_preferences (bpy w))))%nat
      as Hths by (by apply lookup_lt_Some in Hth).
    destruct (main_effect w1 bcs
                {| view_3d_face_select :=
                     <[3%nat := VFloat (PyFloat.lit "0.4")]>
                       (view_3d_face_select th) |}
                {| addon_preferences :=
                     <["compute_device_type" := VStr "OPTIX"]>
                       (addon_preferences a) |} Hi1 Hc)
      as (w2 & E2 & L2 & Sc2 & Vl2 & Sp2 & Cam2 & P2 & K2).
    { rewrite P1. cbn [pref_themes]. by apply list_lookup_insert_eq. }
    { cbn [view_3d_face_select]. by rewrite length_insert. }
    { rewrite P1. cbn [pref_addons]. apply lookup_insert_eq. }
    rewrite E2. cbn [fst snd].
    split; [done|].
    split; [by rewrite Sc2, Sc1, assign_all_again|].
    split; [by rewrite Vl2, Vl1, assign_all_again|].
    split.
    { rewrite P2, P1.
      cbn [pref_props pref_themes pref_addons view_3d_face_select
           addon_preferences].
      by rewrite assign_all_again, !list_insert_insert_eq,
        !insert_insert_eq. }
    split; [by rewrite K2, K1, insert_insert_eq|].
    split.
    + intros r0. rewrite Sp2, Sp1, (space_table_same_layout _ _ _ L1).
      apply assign_space_again.
    + intros r0. rewrite Cam2, Cam1. unfold camera_table.
      destruct L1 as (_ & _ & -> & _). apply assign_camera_again.
  - assert (forall w', bpy w' = bpy w ->
              main w' =
              ({| bpy := bpy w';
                  trace := trace w' ++
                    [Print "BlenderCustomSettings: Unsupported version!"] |},
               inr tt)) as Hm.
    { intros w' Hb. unfold main. rewrite bind_run, Hinit by (by rewrite Hb).
      by rewrite Hc, print_run. }
    rewrite (Hm w eq_refl). cbn [fst]. rewrite Hm by done.
    by repeat split.
Qed.

Lemma main_twice_witness :
  (main (studio "2.83.0" true)).2 = inr tt /\
  (main (main (studio "2.83.0" true)).1).2 = inr tt /\
  context_scene (bpy (main (main (studio "2.83.0" true)).1).1) =
  context_scene (bpy (main (studio "2.83.0" true)).1).
Proof.
  assert ((main (studio "2.83.0" true)).2 = inr tt) as H
    by (vm_compute; reflexivity).
  split; [exact H|].
  destruct (main_twice _ H) as (H1 & H2 & _). by split.
Defined.
